(** * Civic issue reporting backend: engagement, membership and history

    Shallow embedding of the Express route handlers and Mongoose models of
    [backend/routes] and [backend/models]:

    - [Complaint]: [PUT /api/complaints/:id/status], [POST /api/complaints/:id/vote],
      the [pre('save')] status-history hook and [hasUserVoted];
    - [Comment]: [PUT /api/comments/:id], [DELETE /api/comments/:id],
      [POST /api/comments/:id/like], the [pre('save')] edit-history hook;
    - [Community]: [isMember], [isModerator], [addMember], [removeMember],
      [POST /api/communities], [.../join], [.../leave].

    A handler is a function from the clock reading, the authenticated user
    ([req.user]), the request body and the document returned by [findById]
    to the HTTP reply and the document as it is stored afterwards.  A request
    reads the clock once: [new Date()], [Date.now()] and the [Date.now]
    schema defaults of one request all yield [now].  Arrays are lists (order
    and duplicates are kept), [ObjectId]s are their hexadecimal [toString()]
    form, dates are milliseconds since the epoch.  Socket.io emissions and
    the updates of other collections are not part of a handler's result. *)

From Stdlib Require Import List String Ascii Bool ZArith QArith Lia Permutation.
Import ListNotations.
Open Scope string_scope.

(** ** Identifiers, dates, replies *)

Definition ObjectId := string.
Definition toString (o : ObjectId) : string := o.
Definition Date := Z.
Bind Scope Z_scope with Date.

Record User := mkUser { _id : ObjectId; role : string; name : string }.

(** [res.json(body)] answers with status 200, [res.status(201).json(body)]
    with 201; [res.status(n).json({ message })] is an error reply. *)
Inductive Reply (A : Type) : Type :=
| Ok (body : A)
| Created (body : A)
| Err (code : nat) (message : string).
Arguments Ok {A} body.
Arguments Created {A} body.
Arguments Err {A} code message.

Definition statusCode {A} (r : Reply A) : nat :=
  match r with Ok _ => 200%nat | Created _ => 201%nat | Err c _ => c end.

(** ** JavaScript array operations used by the handlers *)
Module Js.
Definition some {A} (p : A -> bool) (l : list A) : bool := existsb p l.
Definition push {A} (l : list A) (x : A) : list A := l ++ [x].
End Js.

(** ** express-validator chains (ASCII strings) *)
Module Validator.
(** The white space of [\s] among the ASCII characters:
    tab, line feed, vertical tab, form feed, carriage return, space. *)
Definition isSpace (a : ascii) : bool :=
  let n := N_of_ascii a in
  ((9 <=? n) && (n <=? 13) || (n =? 32))%N.

Fixpoint ltrim (s : string) : string :=
  match s with
  | EmptyString => EmptyString
  | String a r => if isSpace a then ltrim r else s
  end.

Fixpoint rtrim (s : string) : string :=
  match s with
  | EmptyString => EmptyString
  | String a r =>
      match rtrim r with
      | EmptyString => if isSpace a then EmptyString else String a EmptyString
      | r' => String a r'
      end
  end.

Definition trim (s : string) : string := rtrim (ltrim s).

Definition isLength (min max : nat) (s : string) : bool :=
  (min <=? String.length s)%nat && (String.length s <=? max)%nat.

Definition isIn (s : string) (allowed : list string) : bool :=
  existsb (String.eqb s) allowed.
End Validator.

(** ** Mongoose change tracking

    A document read by [findById] is not new and has no modified path.
    Assigning a path of such a document marks it modified only when the value
    differs from the current one.  Only the paths that the [pre('save')] hooks
    of the models consult are recorded. *)
Module Mongoose.
Record Document (A : Type) : Type :=
  mkDoc { fields : A; isNew : bool; modifiedPaths : list string }.
Arguments mkDoc {A} fields isNew modifiedPaths.
Arguments fields {A} d.
Arguments isNew {A} d.
Arguments modifiedPaths {A} d.

Definition hydrate {A} (a : A) : Document A := mkDoc a false [].
Definition construct {A} (a : A) (paths : list string) : Document A :=
  mkDoc a true paths.

Definition isModified {A} (path : string) (d : Document A) : bool :=
  existsb (String.eqb path) (modifiedPaths d).

(** [doc.path = v]: [upd] stores the value, [same] tells whether it equals
    the current one. *)
Definition assign {A} (path : string) (same : bool) (upd : A -> A)
    (d : Document A) : Document A :=
  if isNew d || negb same
  then mkDoc (upd (fields d)) (isNew d) (path :: modifiedPaths d)
  else d.

(** Mutation of an untracked path (array pushes, flags). *)
Definition mutate {A} (upd : A -> A) (d : Document A) : Document A :=
  mkDoc (upd (fields d)) (isNew d) (modifiedPaths d).
End Mongoose.

(** ** models/Complaint.js and routes/complaints.js *)
Module Complaint.
Import Mongoose.

Module Vote.
Record t := mk { user : ObjectId; votedAt : Date }.
End Vote.

Module StatusEntry.
Record t := mk {
  status : string;
  changedBy : option ObjectId;
  changedAt : Date;
  comment : option string }.
End StatusEntry.

Module Resolution.
Record t := mk {
  description : option string;
  resolvedBy : ObjectId;
  resolvedAt : Date }.
End Resolution.

(** The paths of [complaintSchema] that the status and vote handlers read
    or write, and those the frame properties speak about. *)
Record t := mk {
  title : string;
  description : string;
  category : string;
  status : string;
  priority : string;
  submittedBy : ObjectId;
  assignedTo : option ObjectId;
  upvotes : list Vote.t;
  downvotes : list Vote.t;
  comments : list ObjectId;
  statusHistory : list StatusEntry.t;
  resolutionDetails : option Resolution.t }.

Definition set_status (v : string) (c : t) : t :=
  mk (title c) (description c) (category c) v (priority c) (submittedBy c)
     (assignedTo c) (upvotes c) (downvotes c) (comments c) (statusHistory c)
     (resolutionDetails c).

Definition set_upvotes (v : list Vote.t) (c : t) : t :=
  mk (title c) (description c) (category c) (status c) (priority c)
     (submittedBy c) (assignedTo c) v (downvotes c) (comments c)
     (statusHistory c) (resolutionDetails c).

Definition set_downvotes (v : list Vote.t) (c : t) : t :=
  mk (title c) (description c) (category c) (status c) (priority c)
     (submittedBy c) (assignedTo c) (upvotes c) v (comments c)
     (statusHistory c) (resolutionDetails c).

Definition set_statusHistory (v : list StatusEntry.t) (c : t) : t :=
  mk (title c) (description c) (category c) (status c) (priority c)
     (submittedBy c) (assignedTo c) (upvotes c) (downvotes c) (comments c)
     v (resolutionDetails c).

Definition set_resolutionDetails (v : option Resolution.t) (c : t) : t :=
  mk (title c) (description c) (category c) (status c) (priority c)
     (submittedBy c) (assignedTo c) (upvotes c) (downvotes c) (comments c)
     (statusHistory c) v.

(** [complaintSchema.pre('save')]: the entry pushed by the hook has neither
    [changedBy] nor [comment]. *)
Definition preSave (now : Date) (d : Document t) : Document t :=
  if isModified "status" d && negb (isNew d)
  then mutate (fun c =>
         set_statusHistory
           (Js.push (statusHistory c)
              (StatusEntry.mk (status c) None now None)) c) d
  else d.

(** [await complaint.save()]: hooks run, then the document is stored. *)
Definition save (now : Date) (d : Document t) : t := fields (preSave now d).

(** [complaintSchema.methods.hasUserVoted]; [None] is [null]. *)
Definition hasUserVoted (c : t) (userId : ObjectId) : option string :=
  let hasUpvoted :=
    Js.some (fun vote => toString (Vote.user vote) =? toString userId) (upvotes c) in
  let hasDownvoted :=
    Js.some (fun vote => toString (Vote.user vote) =? toString userId) (downvotes c) in
  if hasUpvoted then Some "upvote"
  else if hasDownvoted then Some "downvote"
  else None.

Definition statuses : list string :=
  ["Submitted"; "In Progress"; "Resolved"; "Rejected"].

(** [router.put('/:id/status')].  [comment] is [None] when the body has no
    such field; the validation chain trims it otherwise. *)
Definition updateStatus (now : Date) (user : User) (status0 : string)
    (comment0 : option string) (found : option t) : Reply t * option t :=
  let comment := option_map Validator.trim comment0 in
  if negb (Validator.isIn status0 statuses &&
           match comment with
           | None => true
           | Some s => Validator.isLength 0 500 s
           end)
  then (Err 400 "Validation failed", found)
  else
    match found with
    | None => (Err 404 "Complaint not found", None)
    | Some stored =>
        let complaint := hydrate stored in
        if negb (role user =? "admin") &&
           match assignedTo (fields complaint) with
           | Some a => negb (toString a =? toString (_id user))
           | None => true
           end
        then (Err 403 "Not authorized to update this complaint", found)
        else
          let complaint :=
            assign "status" (status0 =? status (fields complaint))
                   (set_status status0) complaint in
          let complaint :=
            mutate (fun c =>
              set_statusHistory
                (Js.push (statusHistory c)
                   (StatusEntry.mk status0 (Some (_id user)) now comment)) c)
              complaint in
          let complaint :=
            if status0 =? "Resolved"
            then mutate (set_resolutionDetails
                           (Some (Resolution.mk comment (_id user) now)))
                        complaint
            else complaint in
          let saved := save now complaint in
          (Ok saved, Some saved)
    end.

Record VoteResult := mkVoteResult {
  upvoteCount : nat;
  downvoteCount : nat;
  userVote : option string }.

(** [router.post('/:id/vote')]. *)
Definition vote (now : Date) (user : User) (voteType : string)
    (found : option t) : Reply VoteResult * option t :=
  if negb (Validator.isIn voteType ["upvote"; "downvote"])
  then (Err 400 "Validation failed", found)
  else
    match found with
    | None => (Err 404 "Complaint not found", None)
    | Some stored =>
        let complaint := hydrate stored in
        let userId := _id user in
        let hasUpvoted :=
          Js.some (fun vote => toString (Vote.user vote) =? toString userId)
                  (upvotes (fields complaint)) in
        let hasDownvoted :=
          Js.some (fun vote => toString (Vote.user vote) =? toString userId)
                  (downvotes (fields complaint)) in
        let complaint :=
          mutate (fun c =>
            set_upvotes
              (filter (fun vote =>
                         negb (toString (Vote.user vote) =? toString userId))
                      (upvotes c)) c) complaint in
        let complaint :=
          mutate (fun c =>
            set_downvotes
              (filter (fun vote =>
                         negb (toString (Vote.user vote) =? toString userId))
                      (downvotes c)) c) complaint in
        let complaint :=
          if (voteType =? "upvote") && negb hasUpvoted
          then mutate (fun c =>
                 set_upvotes (Js.push (upvotes c) (Vote.mk userId now)) c)
               complaint
          else if (voteType =? "downvote") && negb hasDownvoted
          then mutate (fun c =>
                 set_downvotes (Js.push (downvotes c) (Vote.mk userId now)) c)
               complaint
          else complaint in
        let saved := save now complaint in
        (Ok (mkVoteResult (List.length (upvotes saved))
                          (List.length (downvotes saved))
                          (hasUserVoted saved userId)),
         Some saved)
    end.

(** The stored documents after each of a series of vote requests of one
    user on one complaint. *)
Fixpoint voteTrace (user : User) (calls : list (Date * string)) (c : t)
    : list t :=
  match calls with
  | [] => []
  | (now, voteType) :: rest =>
      match snd (vote now user voteType (Some c)) with
      | Some c' => c' :: voteTrace user rest c'
      | None => []
      end
  end.
End Complaint.

(** ** models/Comment.js and routes/comments.js *)
Module Comment.
Import Mongoose.

Module Like.
Record t := mk { user : ObjectId; likedAt : Date }.
End Like.

Module Edit.
Record t := mk { content : string; editedAt : Date }.
End Edit.

Record t := mk {
  content : string;
  author : ObjectId;
  complaint : option ObjectId;
  communityPost : option ObjectId;
  parentComment : option ObjectId;
  replies : list ObjectId;
  likes : list Like.t;
  isEdited : bool;
  editHistory : list Edit.t;
  isDeleted : bool;
  deletedAt : option Date;
  createdAt : Date }.

Definition set_content (v : string) (c : t) : t :=
  mk v (author c) (complaint c) (communityPost c) (parentComment c)
     (replies c) (likes c) (isEdited c) (editHistory c) (isDeleted c)
     (deletedAt c) (createdAt c).

Definition set_likes (v : list Like.t) (c : t) : t :=
  mk (content c) (author c) (complaint c) (communityPost c) (parentComment c)
     (replies c) v (isEdited c) (editHistory c) (isDeleted c)
     (deletedAt c) (createdAt c).

Definition set_isEdited (v : bool) (c : t) : t :=
  mk (content c) (author c) (complaint c) (communityPost c) (parentComment c)
     (replies c) (likes c) v (editHistory c) (isDeleted c)
     (deletedAt c) (createdAt c).

Definition set_editHistory (v : list Edit.t) (c : t) : t :=
  mk (content c) (author c) (complaint c) (communityPost c) (parentComment c)
     (replies c) (likes c) (isEdited c) v (isDeleted c)
     (deletedAt c) (createdAt c).

Definition set_isDeleted (v : bool) (c : t) : t :=
  mk (content c) (author c) (complaint c) (communityPost c) (parentComment c)
     (replies c) (likes c) (isEdited c) (editHistory c) v
     (deletedAt c) (createdAt c).

Definition set_deletedAt (v : option Date) (c : t) : t :=
  mk (content c) (author c) (complaint c) (communityPost c) (parentComment c)
     (replies c) (likes c) (isEdited c) (editHistory c) (isDeleted c)
     v (createdAt c).

(** [comment.content = v]; the schema declares [trim: true], so the setter
    trims before the value is compared and stored. *)
Definition assign_content (v : string) (d : Document t) : Document t :=
  let v' := Validator.trim v in
  assign "content" (v' =? content (fields d)) (set_content v') d.

(** [commentSchema.methods.hasUserLiked]. *)
Definition hasUserLiked (c : t) (userId : ObjectId) : bool :=
  Js.some (fun like => toString (Like.user like) =? toString userId) (likes c).

(** [commentSchema.pre('save')]: it reads [this.content] when the document
    is saved, that is after the handler assigned it. *)
Definition preSave (now : Date) (d : Document t) : Document t :=
  if isModified "content" d && negb (isNew d)
  then mutate (fun c =>
         set_isEdited true
           (set_editHistory
              (Js.push (editHistory c) (Edit.mk (content c) now)) c)) d
  else d.

Definition save (now : Date) (d : Document t) : t := fields (preSave now d).

(** validator.js's [isMongoId]: [isHexadecimal(str) && str.length === 24],
    with [isHexadecimal] the library's test of that name. *)
Definition isMongoId (isHexadecimal : string -> bool) (s : string) : bool :=
  isHexadecimal s && (String.length s =? 24)%nat.

(** [body(field).optional().isMongoId()]: an absent field passes. *)
Definition optionalMongoId (isHexadecimal : string -> bool)
    (o : option string) : bool :=
  match o with Some s => isMongoId isHexadecimal s | None => true end.

(** Truthiness of a body field that is a string or absent. *)
Definition truthy (o : option string) : bool :=
  match o with Some s => negb (s =? "") | None => false end.

(** [if (field) { if (!(await Model.findById(field))) return 404 }] followed
    by [rest]: [castObjectId] is Mongoose's cast of the string to an
    ObjectId, [None] when it throws, which the handler's [catch] answers
    500; [exists_] tells whether the collection has the document. *)
Definition lookup {B : Type} (castObjectId : string -> option ObjectId)
    (exists_ : ObjectId -> bool) (o : option string) (message : string)
    (rest : Reply B * option t) : Reply B * option t :=
  match o with
  | Some s =>
      if s =? "" then rest
      else
        match castObjectId s with
        | None => (Err 500 "Server error", None)
        | Some i => if exists_ i then rest else (Err 404 message, None)
        end
  | None => rest
  end.

(** The reference that [new Comment({ ... })] holds for a body field:
    [Some None] when the field is absent, [None] when the cast throws (the
    save is then rejected). *)
Definition reference (castObjectId : string -> option ObjectId)
    (o : option string) : option (option ObjectId) :=
  match o with
  | Some s => option_map Some (castObjectId s)
  | None => Some None
  end.

(** [router.post('/')] as far as the comment itself goes; the [$push] of
    the new identifier into the parents is another document's update.  The
    three references of the body are strings or absent;
    [complaintExists], [postExists] and [commentExists] answer
    [Complaint.findById], [CommunityPost.findById] and [Comment.findById];
    [populated] is the re-read [Comment.findById(comment._id)
    .populate('author', 'name avatar')] of the stored comment, the body of
    the reply. *)
Definition create {B : Type} (populated : t -> B)
    (isHexadecimal : string -> bool) (castObjectId : string -> option ObjectId)
    (complaintExists postExists commentExists : ObjectId -> bool)
    (now : Date) (user : User) (content0 : string)
    (complaint0 communityPost0 parentComment0 : option string)
    : Reply B * option t :=
  let content1 := Validator.trim content0 in
  if negb (Validator.isLength 1 500 content1 &&
           optionalMongoId isHexadecimal complaint0 &&
           optionalMongoId isHexadecimal communityPost0 &&
           optionalMongoId isHexadecimal parentComment0)
  then (Err 400 "Validation failed", None)
  else if negb (truthy complaint0) && negb (truthy communityPost0)
  then (Err 400 "Either complaint or community post ID is required", None)
  else
    lookup castObjectId complaintExists complaint0 "Complaint not found"
      (lookup castObjectId postExists communityPost0 "Community post not found"
         (lookup castObjectId commentExists parentComment0
                 "Parent comment not found"
            match reference castObjectId complaint0,
                  reference castObjectId communityPost0,
                  reference castObjectId parentComment0 with
            | Some complaint1, Some communityPost1, Some parentComment1 =>
                let comment :=
                  construct
                    (mk (Validator.trim content1) (_id user) complaint1
                        communityPost1 parentComment1 [] [] false [] false
                        None now)
                    ["content"; "author"] in
                let saved := save now comment in
                (Created (populated saved), Some saved)
            | _, _, _ => (Err 500 "Server error", None)
            end)).

Definition msPerHour : Z := 1000 * 60 * 60.

(** [router.put('/:id')]. *)
Definition update (now : Date) (user : User) (content0 : string)
    (found : option t) : Reply t * option t :=
  let content1 := Validator.trim content0 in
  if negb (Validator.isLength 1 500 content1)
  then (Err 400 "Validation failed", found)
  else
    match found with
    | None => (Err 404 "Comment not found", None)
    | Some stored =>
        let comment := hydrate stored in
        if negb (toString (author (fields comment)) =? toString (_id user))
        then (Err 403 "Not authorized to edit this comment", found)
        else
          let hoursSinceCreation : Q :=
            (inject_Z (now - createdAt (fields comment)) / inject_Z msPerHour)%Q in
          if negb (Qle_bool hoursSinceCreation 24)
          then (Err 403 "Comment is too old to edit", found)
          else
            let oldContent := content (fields comment) in
            let comment := assign_content content1 comment in
            let comment := mutate (set_isEdited true) comment in
            let comment :=
              mutate (fun c =>
                set_editHistory
                  (Js.push (editHistory c) (Edit.mk oldContent now)) c)
                comment in
            let saved := save now comment in
            (Ok saved, Some saved)
    end.

Definition placeholder : string := "[This comment has been deleted]".

(** [router.delete('/:id')]. *)
Definition softDelete (now : Date) (user : User) (found : option t)
    : Reply string * option t :=
  match found with
  | None => (Err 404 "Comment not found", None)
  | Some stored =>
      let comment := hydrate stored in
      if negb (toString (author (fields comment)) =? toString (_id user)) &&
         negb (role user =? "admin")
      then (Err 403 "Not authorized to delete this comment", found)
      else
        let comment := mutate (set_isDeleted true) comment in
        let comment := mutate (set_deletedAt (Some now)) comment in
        let comment := assign_content placeholder comment in
        let saved := save now comment in
        (Ok "Comment deleted successfully", Some saved)
  end.

Record LikeResult := mkLikeResult {
  message : string;
  likeCount : nat;
  hasLiked : bool }.

(** [router.post('/:id/like')]. *)
Definition like (now : Date) (user : User) (found : option t)
    : Reply LikeResult * option t :=
  match found with
  | None => (Err 404 "Comment not found", None)
  | Some stored =>
      let comment := hydrate stored in
      let userId := _id user in
      let hasLiked0 :=
        Js.some (fun like => toString (Like.user like) =? toString userId)
                (likes (fields comment)) in
      let comment :=
        if hasLiked0
        then mutate (fun c =>
               set_likes
                 (filter (fun like =>
                            negb (toString (Like.user like) =? toString userId))
                         (likes c)) c) comment
        else mutate (fun c =>
               set_likes (Js.push (likes c) (Like.mk userId now)) c) comment in
      let saved := save now comment in
      (Ok (mkLikeResult (if hasLiked0 then "Comment unliked" else "Comment liked")
                        (List.length (likes saved))
                        (negb hasLiked0)),
       Some saved)
  end.

(** The stored comment after a series of like requests of one user, one
    per clock reading. *)
Fixpoint likeTimes (user : User) (nows : list Date) (c : t) : option t :=
  match nows with
  | [] => Some c
  | now :: rest =>
      match snd (like now user (Some c)) with
      | Some c' => likeTimes user rest c'
      | None => None
      end
  end.
End Comment.

(** ** models/Community.js and routes/communities.js

    The only [pre('save')] hook of the model writes [slug], which no handler
    below reads; [save] therefore stores the document as the handler left it. *)
Module Community.

Module Member.
Record t := mk { user : ObjectId; joinedAt : Date; role : string }.
End Member.

Record t := mk {
  name : string;
  description : string;
  category : string;
  createdBy : ObjectId;
  moderators : list ObjectId;
  members : list Member.t;
  posts : list ObjectId;
  isPrivate : bool;
  requireApproval : bool }.

Definition set_members (v : list Member.t) (c : t) : t :=
  mk (name c) (description c) (category c) (createdBy c) (moderators c) v
     (posts c) (isPrivate c) (requireApproval c).

(** [communitySchema.methods.isMember]. *)
Definition isMember (c : t) (userId : ObjectId) : bool :=
  Js.some (fun member => toString (Member.user member) =? toString userId)
          (members c).

(** [communitySchema.methods.isModerator]. *)
Definition isModerator (c : t) (userId : ObjectId) : bool :=
  Js.some (fun mod_ => toString mod_ =? toString userId) (moderators c) ||
  (toString (createdBy c) =? toString userId).

(** [communitySchema.methods.addMember]; [joinedAt] and [role] take their
    schema defaults [Date.now] and ['member']. *)
Definition addMember (now : Date) (c : t) (userId : ObjectId) : t :=
  if negb (isMember c userId)
  then set_members (Js.push (members c) (Member.mk userId now "member")) c
  else c.

(** [communitySchema.methods.removeMember]. *)
Definition removeMember (c : t) (userId : ObjectId) : t :=
  set_members
    (filter (fun member =>
               negb (toString (Member.user member) =? toString userId))
            (members c)) c.

Definition categories : list string :=
  ["Sanitation"; "Roads"; "Water"; "Electricity"; "Parks"; "Transport";
   "Health"; "General"; "Other"].

(** [router.post('/')]; [existing] is the result of
    [Community.findOne({ name })], the two flags arrive as form strings.
    [slugFree] tells whether no stored community has the slug that the
    pre-save hook derives from the name: [slug] is unique, so
    [community.save()] throws otherwise and the handler answers 500.
    [populated] is the re-read [Community.findById(community._id)
    .populate('createdBy', 'name avatar')] of the stored community, the body
    of the reply. *)
Definition create {B : Type} (populated : t -> B) (now : Date) (user : User)
    (name0 description0 category0 : string)
    (isPrivate0 requireApproval0 : option string) (existing : option t)
    (slugFree : bool) : Reply B * option t :=
  let name1 := Validator.trim name0 in
  let description1 := Validator.trim description0 in
  let isTrue (o : option string) :=
    match o with Some s => s =? "true" | None => false end in
  if negb (Validator.isLength 3 50 name1 &&
           Validator.isLength 10 500 description1 &&
           Validator.isIn category0 categories)
  then (Err 400 "Validation failed", None)
  else
    match existing with
    | Some _ => (Err 400 "Community name already exists", None)
    | None =>
        let community :=
          mk (Validator.trim name1) description1 category0 (_id user) [] [] []
             (isTrue isPrivate0) (isTrue requireApproval0) in
        let community :=
          set_members
            (Js.push (members community) (Member.mk (_id user) now "admin"))
            community in
        let community :=
          mk (name community) (description community) (category community)
             (createdBy community)
             (Js.push (moderators community) (_id user))
             (members community) (posts community) (isPrivate community)
             (requireApproval community) in
        if slugFree
        then (Created (populated community), Some community)
        else (Err 500 "Server error", None)
    end.

(** [router.post('/:id/join')]; the reply carries [memberCount]. *)
Definition join (now : Date) (user : User) (found : option t)
    : Reply nat * option t :=
  match found with
  | None => (Err 404 "Community not found", None)
  | Some community =>
      if isMember community (_id user)
      then (Err 400 "Already a member of this community", found)
      else
        let community := addMember now community (_id user) in
        (Ok (List.length (members community)), Some community)
  end.

(** [router.post('/:id/leave')]. *)
Definition leave (user : User) (found : option t) : Reply nat * option t :=
  match found with
  | None => (Err 404 "Community not found", None)
  | Some community =>
      if negb (isMember community (_id user))
      then (Err 400 "Not a member of this community", found)
      else if toString (createdBy community) =? toString (_id user)
      then (Err 400 "Community creator cannot leave the community", found)
      else
        let community := removeMember community (_id user) in
        (Ok (List.length (members community)), Some community)
  end.

Definition memberUsers (c : t) : list ObjectId :=
  map Member.user (members c).

(** [community.posts.push(post._id)], the update of the community in
    [router.post('/:id/posts')]. *)
Definition addPost (c : t) (postId : ObjectId) : t :=
  mk (name c) (description c) (category c) (createdBy c) (moderators c)
     (members c) (Js.push (posts c) postId) (isPrivate c) (requireApproval c).

(** Communities that the handlers of routes/communities.js can store: one
    made by [create], then joined and left by any users at any times and
    given posts with any identifiers. *)
Inductive reachable : t -> Prop :=
| reach_create now user name0 description0 category0 p r slugFree c :
    snd (create (fun community => community) now user name0 description0
                category0 p r None slugFree) = Some c ->
    reachable c
| reach_join now user c c' :
    reachable c -> snd (join now user (Some c)) = Some c' -> reachable c'
| reach_leave user c c' :
    reachable c -> snd (leave user (Some c)) = Some c' -> reachable c'
| reach_post postId c :
    reachable c -> reachable (addPost c postId).
End Community.

(** ** Vocabulary of the complaint properties *)
Module ComplaintView.
Import Complaint.

Definition castBy (userId : ObjectId) (vote : Vote.t) : bool :=
  toString (Vote.user vote) =? toString userId.

Definition hasUpvoted (c : t) (userId : ObjectId) : bool :=
  Js.some (castBy userId) (upvotes c).

Definition hasDownvoted (c : t) (userId : ObjectId) : bool :=
  Js.some (castBy userId) (downvotes c).

(** The votes that [filter] keeps: those of the other users. *)
Definition others (userId : ObjectId) (l : list Vote.t) : list Vote.t :=
  filter (fun vote => negb (castBy userId vote)) l.

Definition validVoteType (voteType : string) : bool :=
  Validator.isIn voteType ["upvote"; "downvote"].

(** Two upvote requests of one user in succession, nothing in between. *)
Definition upvoteTwice (now1 now2 : Date) (user : User) (c : t)
    : Reply VoteResult * option t :=
  vote now2 user "upvote" (snd (vote now1 user "upvote" (Some c))).

(** The reply that reports the counts of [c] and no vote of the user. *)
Definition restored (c : t) : Reply VoteResult :=
  Ok (mkVoteResult (List.length (upvotes c)) (List.length (downvotes c)) None).

Definition sample (up down : list Vote.t) : t :=
  mk "Pothole" "Deep pothole on main road" "Roads" "Submitted" "Medium"
     "64b0c0ffee0000000000000b" None up down [] [] None.

(** The guard of [router.put('/:id/status')]: admin or assignee. *)
Definition statusAuthorized (user : User) (c : t) : bool :=
  (role user =? "admin") ||
  match assignedTo c with
  | Some a => toString a =? toString (_id user)
  | None => false
  end.

(** The validation chain of the status handler. *)
Definition statusValid (status0 : string) (comment0 : option string) : bool :=
  Validator.isIn status0 statuses &&
  match option_map Validator.trim comment0 with
  | None => true
  | Some s => Validator.isLength 0 500 s
  end.
End ComplaintView.

Module CommentView.
Import Comment.

Definition likedBy (userId : ObjectId) (like : Like.t) : bool :=
  toString (Like.user like) =? toString userId.

Definition likeUsers (c : t) : list ObjectId := map Like.user (likes c).

(** The guard of [router.delete]: author or admin. *)
Definition mayDelete (user : User) (c : t) : bool :=
  (toString (author c) =? toString (_id user)) || (role user =? "admin").

(** The most recent entry of the edit history,
    [editHistory[editHistory.length - 1]]. *)
Definition lastEdit (c : t) : option Edit.t :=
  nth_error (editHistory c) (List.length (editHistory c) - 1).

(** Milliseconds in the 24 hours of the edit window. *)
Definition editWindow : Z := 24 * 60 * 60 * 1000.

Definition sample (content0 : string) (history : list Edit.t) : t :=
  mk content0 "64b0c0ffee0000000000000a" (Some "64b0c0ffee00000000000001")
     None None [] [] false history false None 1000.
End CommentView.

(** ** Further parts of models/Complaint.js and routes/complaints.js *)
Module ComplaintMore.
Import Complaint.

(** [complaintSchema.virtual('voteCount')]. *)
Definition voteCount (c : t) : Z :=
  Z.of_nat (List.length (upvotes c)) - Z.of_nat (List.length (downvotes c)).

(** [complaintSchema.virtual('engagementScore')]. *)
Definition engagementScore (c : t) : nat :=
  (List.length (upvotes c) + List.length (downvotes c) + List.length (comments c))%nat.

Definition voters (l : list Vote.t) : list ObjectId := map Vote.user l.

(** No user has two entries in an array and nobody is in both. *)
Definition votesWellFormed (c : t) : Prop :=
  NoDup (voters (upvotes c)) /\
  NoDup (voters (downvotes c)) /\
  forall u, In u (voters (upvotes c)) -> ~ In u (voters (downvotes c)).

(** The requests to one complaint that write it. *)
Inductive Request : Type :=
| VoteRequest (now : Date) (user : User) (voteType : string)
| StatusRequest (now : Date) (user : User) (status0 : string)
                (comment0 : option string).

Definition handle (found : option t) (r : Request) : option t :=
  match r with
  | VoteRequest now user voteType => snd (vote now user voteType found)
  | StatusRequest now user status0 comment0 =>
      snd (updateStatus now user status0 comment0 found)
  end.

(** The stored complaint after a series of requests. *)
Definition run (requests : list Request) (found : option t) : option t :=
  fold_left handle requests found.

(** [String.prototype.toLowerCase] on ASCII strings. *)
Definition lowerChar (a : ascii) : ascii :=
  let n := N_of_ascii a in
  if ((65 <=? n) && (n <=? 90))%N then ascii_of_N (n + 32) else a.

Fixpoint toLowerCase (s : string) : string :=
  match s with
  | EmptyString => EmptyString
  | String a r => String (lowerChar a) (toLowerCase r)
  end.

(** The [allowed] array of [router.post('/')], also the schema's enum. *)
Definition allowed : list string :=
  ["Sanitation"; "Roads"; "Water"; "Electricity"; "Parks"; "Transport";
   "Health"; "Other"].

(** The custom validator of [body('category')]: [true] when it returns,
    [false] when it throws ('Category is required', 'Invalid category').
    [lower] is [String.prototype.toLowerCase]. *)
Definition categoryAccepted (lower : string -> string) (value : string) : bool :=
  if value =? "" then false
  else
    let normalized := lower value in
    existsb (fun a => lower a =? normalized) allowed.

(** [allowed.find(a => a.toLowerCase() === String(category).toLowerCase())
    || 'Other']. *)
Definition normalizedCategory (lower : string -> string) (category0 : string)
    : string :=
  match find (fun a => lower a =? lower category0) allowed with
  | Some a => a
  | None => "Other"
  end.

Definition priorities : list string := ["Low"; "Medium"; "High"; "Critical"].

(** [complaint.priority] after [if (priority && [...].includes(priority))
    complaint.priority = priority], from the schema default 'Medium';
    [None] is a body without the field. *)
Definition chosenPriority (priority0 : option string) : string :=
  match priority0 with
  | Some p =>
      if negb (p =? "") && existsb (String.eqb p) priorities then p else "Medium"
  | None => "Medium"
  end.
End ComplaintMore.

(** ** Series of requests to one comment *)
Module CommentMore.
Import Comment.

(** The requests to one comment that write it. *)
Inductive Request : Type :=
| UpdateRequest (now : Date) (user : User) (content0 : string)
| DeleteRequest (now : Date) (user : User)
| LikeRequest (now : Date) (user : User).

Definition handle (found : option t) (r : Request) : option t :=
  match r with
  | UpdateRequest now user content0 => snd (update now user content0 found)
  | DeleteRequest now user => snd (softDelete now user found)
  | LikeRequest now user => snd (like now user found)
  end.

(** The stored comment after a series of requests. *)
Definition run (requests : list Request) (found : option t) : option t :=
  fold_left handle requests found.

(** The paths of a comment that no handler of an existing comment writes. *)
Definition identity (c : t)
    : ObjectId * option ObjectId * option ObjectId * option ObjectId *
      list ObjectId * Date :=
  (author c, complaint c, communityPost c, parentComment c, replies c,
   createdAt c).

(** The body field [o] of [router.post('/')] is acceptable and resolves to
    the reference [r]: it is absent, or it is a string that passes
    [isMongoId], that Mongoose casts to the identifier [i], and the
    collection has a document [i]. *)
Definition resolves (isHexadecimal : string -> bool)
    (castObjectId : string -> option ObjectId) (exists_ : ObjectId -> bool)
    (o : option string) (r : option ObjectId) : Prop :=
  match o, r with
  | None, None => True
  | Some s, Some i =>
      isHexadecimal s = true /\ String.length s = 24%nat /\
      castObjectId s = Some i /\ exists_ i = true
  | _, _ => False
  end.

(** [c'] keeps what [c] had: identity, edit history as a prefix (with
    [added] after it), deleted and edited flags once set. *)
Definition keepsComment (c c' : t) (added : list Edit.t) : Prop :=
  identity c' = identity c /\
  editHistory c' = (editHistory c ++ added)%list /\
  implb (isDeleted c) (isDeleted c') = true /\
  implb (isEdited c) (isEdited c') = true.
End CommentMore.

(** ** models/CommunityPost.js and the post handler of routes/communities.js *)
Module CommunityPost.
Import Mongoose.

Module Like.
Record t := mk { user : ObjectId; likedAt : Date }.
End Like.

Module View.
Record t := mk { user : ObjectId; viewedAt : Date }.
End View.

Module Image.
Record t := mk { url : string; caption : string; uploadedAt : Date }.
End Image.

Module Edit.
Record t := mk { title : string; content : string; editedAt : Date }.
End Edit.

Record t := mk {
  title : string;
  content : string;
  author : ObjectId;
  community : ObjectId;
  type : string;
  images : list Image.t;
  relatedComplaint : option ObjectId;
  comments : list ObjectId;
  likes : list Like.t;
  views : list View.t;
  isPinned : bool;
  isLocked : bool;
  isEdited : bool;
  editHistory : list Edit.t }.

Definition set_views (v : list View.t) (p : t) : t :=
  mk (title p) (content p) (author p) (community p) (type p) (images p)
     (relatedComplaint p) (comments p) (likes p) v (isPinned p) (isLocked p)
     (isEdited p) (editHistory p).

Definition set_images (v : list Image.t) (p : t) : t :=
  mk (title p) (content p) (author p) (community p) (type p) v
     (relatedComplaint p) (comments p) (likes p) (views p) (isPinned p)
     (isLocked p) (isEdited p) (editHistory p).

Definition set_isEdited (v : bool) (p : t) : t :=
  mk (title p) (content p) (author p) (community p) (type p) (images p)
     (relatedComplaint p) (comments p) (likes p) (views p) (isPinned p)
     (isLocked p) v (editHistory p).

Definition set_editHistory (v : list Edit.t) (p : t) : t :=
  mk (title p) (content p) (author p) (community p) (type p) (images p)
     (relatedComplaint p) (comments p) (likes p) (views p) (isPinned p)
     (isLocked p) (isEdited p) v.

(** [communityPostSchema.methods.hasUserLiked]. *)
Definition hasUserLiked (p : t) (userId : ObjectId) : bool :=
  Js.some (fun like => toString (Like.user like) =? toString userId) (likes p).

(** [communityPostSchema.methods.addView]; [viewedAt] takes its schema
    default [Date.now]. *)
Definition addView (now : Date) (p : t) (userId : ObjectId) : t :=
  let existingView :=
    find (fun view => toString (View.user view) =? toString userId) (views p) in
  match existingView with
  | None => set_views (Js.push (views p) (View.mk userId now)) p
  | Some _ => p
  end.

(** [communityPostSchema.virtual('viewCount')]. *)
Definition viewCount (p : t) : nat := List.length (views p).

(** [communityPostSchema.pre('save')]. *)
Definition preSave (now : Date) (d : Document t) : Document t :=
  if (isModified "title" d || isModified "content" d) && negb (isNew d)
  then mutate (fun p =>
         set_isEdited true
           (set_editHistory
              (Js.push (editHistory p) (Edit.mk (title p) (content p) now)) p)) d
  else d.

Definition save (now : Date) (d : Document t) : t := fields (preSave now d).

Definition types : list string :=
  ["discussion"; "announcement"; "question"; "update"].

(** The validation chain of [router.post('/:id/posts')]. *)
Definition bodyValid (title0 content0 : string) (type0 : option string) : bool :=
  Validator.isLength 5 100 (Validator.trim title0) &&
  Validator.isLength 10 2000 (Validator.trim content0) &&
  match type0 with
  | None => true
  | Some ty => Validator.isIn ty types
  end.

(** The value of the post's [relatedComplaint] for the body's
    [relatedComplaint || null]: [Some None] is [null], [None] a string that
    Mongoose cannot cast to an ObjectId. *)
Definition related (castObjectId : string -> option ObjectId)
    (relatedComplaint0 : option string) : option (option ObjectId) :=
  match relatedComplaint0 with
  | Some r => if r =? "" then Some None else option_map Some (castObjectId r)
  | None => Some None
  end.

(** [router.post('/:id/posts')].  [postId] is the [_id] that Mongoose gives
    the new post, [file] the name of the uploaded image if there is one.
    [castObjectId] is Mongoose's cast of a string to an ObjectId, [None]
    when it throws: the body's [relatedComplaint] is not validated, and
    [post.save()] rejects a post whose [relatedComplaint] cannot be cast,
    which the handler answers 500 before the community is touched.
    [populated] is the re-read [CommunityPost.findById(post._id)
    .populate('author', ...).populate('relatedComplaint', ...)] of the
    stored post, the body of the reply.  The result is the reply, the
    community and the post as stored. *)
Definition create {B : Type} (populated : t -> B)
    (castObjectId : string -> option ObjectId)
    (now : Date) (user : User) (id postId : ObjectId)
    (title0 content0 : string) (type0 : option string)
    (relatedComplaint0 file imageCaption : option string)
    (found : option Community.t)
    : Reply B * option Community.t * option t :=
  let title1 := Validator.trim title0 in
  let content1 := Validator.trim content0 in
  if negb (bodyValid title0 content0 type0)
  then (Err 400 "Validation failed", found, None)
  else
    match found with
    | None => (Err 404 "Community not found", None, None)
    | Some community =>
        if negb (Community.isMember community (_id user))
        then (Err 403 "Must be a community member to post", found, None)
        else
          let type1 := match type0 with Some ty => ty | None => "discussion" end in
          match related castObjectId relatedComplaint0 with
          | None => (Err 500 "Server error", found, None)
          | Some relatedComplaint1 =>
              let post :=
                construct
                  (mk (Validator.trim title1) content1 (_id user) id type1 []
                      relatedComplaint1 [] [] [] false false false [])
                  ["title"; "content"; "type"; "author"; "community"] in
              let post :=
                match file with
                | Some filename =>
                    mutate (fun p =>
                      set_images
                        (Js.push (images p)
                           (Image.mk ("/uploads/" ++ filename)
                              (match imageCaption with
                               | Some s => s
                               | None => ""
                               end)
                              now)) p) post
                | None => post
                end in
              let saved := save now post in
              let community := Community.addPost community postId in
              (Created (populated saved), Some community, Some saved)
          end
    end.
End CommunityPost.

(** ** Virtuals of models/Community.js *)
Module CommunityMore.
Import Community.

(** [communitySchema.virtual('memberCount')]. *)
Definition memberCount (c : t) : nat := List.length (members c).

(** [communitySchema.virtual('postCount')]. *)
Definition postCount (c : t) : nat := List.length (posts c).

(** The validation chain of [router.post('/')]. *)
Definition bodyValid (name0 description0 category0 : string) : bool :=
  Validator.isLength 3 50 (Validator.trim name0) &&
  Validator.isLength 10 500 (Validator.trim description0) &&
  Validator.isIn category0 categories.

Definition isTrue (o : option string) : bool :=
  match o with Some s => s =? "true" | None => false end.

(** The users who viewed a post, in the order of [views]. *)
Definition viewers (p : CommunityPost.t) : list ObjectId :=
  map CommunityPost.View.user (CommunityPost.views p).

Definition hasViewed (p : CommunityPost.t) (userId : ObjectId) : bool :=
  Js.some (fun view => toString (CommunityPost.View.user view) =? toString userId)
          (CommunityPost.views p).
End CommunityMore.

(** ** pages/ComplaintDetail.js: how a complaint's status is shown *)
Module ComplaintDetail.

(** [s.replace(/\s+/g, '-')]: every maximal run of white space becomes one
    hyphen; [inRun] tells that the previous character was white space. *)
Fixpoint replaceRuns (inRun : bool) (s : string) : string :=
  match s with
  | EmptyString => EmptyString
  | String a r =>
      if Validator.isSpace a
      then if inRun then replaceRuns true r else String "-" (replaceRuns true r)
      else String a (replaceRuns false r)
  end.

(** [normalizeStatus]; [String.prototype.trim] strips the same ASCII white
    space as the validator's [trim]. *)
Definition normalizeStatus (status : string) : string :=
  let s := ComplaintMore.toLowerCase (Validator.trim status) in
  if s =? "submitted" then "pending"
  else if s =? "in progress" then "in-progress"
  else replaceRuns false s.

(** No white space in [s]. *)
Fixpoint noSpace (s : string) : bool :=
  match s with
  | EmptyString => true
  | String a r => negb (Validator.isSpace a) && noSpace r
  end.

(** No hyphen in [s]. *)
Fixpoint noHyphen (s : string) : bool :=
  match s with
  | EmptyString => true
  | String a r => negb (Ascii.eqb a "-") && noHyphen r
  end.
End ComplaintDetail.

(** * Properties *)

Section ListFacts.
Context {A : Type}.

Lemma filter_negb_none (p : A -> bool) (l : list A) :
  existsb p l = false -> filter (fun x => negb (p x)) l = l.
Proof.
  induction l as [|x l IH]; simpl; intros H; [reflexivity|].
  apply orb_false_iff in H as [Hx Hl].
  rewrite Hx; simpl. f_equal. auto.
Qed.

Lemma existsb_filter_negb (p : A -> bool) (l : list A) :
  existsb p (filter (fun x => negb (p x)) l) = false.
Proof.
  induction l as [|x l IH]; simpl; [reflexivity|].
  destruct (p x) eqn:E; simpl; [assumption|].
  rewrite E. assumption.
Qed.

Lemma filter_push_drop (p : A -> bool) (l : list A) (x : A) :
  p x = true -> filter (fun y => negb (p y)) (l ++ [x]) = filter (fun y => negb (p y)) l.
Proof.
  intros H. rewrite filter_app. simpl. rewrite H. simpl. apply app_nil_r.
Qed.
End ListFacts.

Section ListMapFacts.
Context {A B : Type} (f : A -> B).

Lemma NoDup_map_filter (p : A -> bool) (l : list A) :
  NoDup (map f l) -> NoDup (map f (filter p l)).
Proof.
  induction l as [|x l IH]; simpl; intros H; [constructor|].
  inversion H as [|? ? Hnotin Hnd]; subst.
  destruct (p x); simpl; [constructor|]; auto.
  intros Hin. apply Hnotin. apply in_map_iff in Hin as (y & Hy & Hin).
  apply filter_In in Hin as [Hin _]. rewrite <- Hy. now apply in_map.
Qed.

Lemma NoDup_map_push (l : list A) (x : A) :
  NoDup (map f l) -> ~ In (f x) (map f l) -> NoDup (map f (l ++ [x])).
Proof.
  intros Hnd Hnotin. rewrite map_app. simpl.
  apply NoDup_app; [assumption | repeat constructor; simpl; tauto | ].
  intros y Hy [<- | []]. contradiction.
Qed.
End ListMapFacts.

Section TrimFacts.
Import Validator.

Lemma rtrim_idem s : rtrim (rtrim s) = rtrim s.
Proof.
  induction s as [|a r IH]; simpl; [reflexivity|].
  destruct (rtrim r) as [|b r'] eqn:E.
  - destruct (isSpace a) eqn:Ea; simpl; [reflexivity|]. now rewrite Ea.
  - simpl in IH |- *. now rewrite IH.
Qed.

Lemma ltrim_head s :
  ltrim s = EmptyString \/
  exists a r, ltrim s = String a r /\ isSpace a = false.
Proof.
  induction s as [|a r IH]; simpl; [now left|].
  destruct (isSpace a) eqn:Ea; [exact IH|].
  right. now exists a, r.
Qed.

Lemma ltrim_rtrim_ltrim s : ltrim (rtrim (ltrim s)) = rtrim (ltrim s).
Proof.
  destruct (ltrim_head s) as [-> | (a & r & -> & Ea)]; [reflexivity|].
  simpl. destruct (rtrim r); rewrite ?Ea; simpl; rewrite ?Ea; reflexivity.
Qed.

Lemma trim_idem s : trim (trim s) = trim s.
Proof.
  unfold trim. now rewrite ltrim_rtrim_ltrim, rtrim_idem.
Qed.

Example trim_sample : trim "  fixed by the  crew  " = "fixed by the  crew".
Proof. reflexivity. Qed.
End TrimFacts.

Section VoteFacts.
Import Complaint Mongoose ComplaintView.

Lemma validVoteType_cases voteType :
  validVoteType voteType = true ->
  voteType = "upvote" \/ voteType = "downvote".
Proof.
  unfold validVoteType, Validator.isIn; simpl.
  destruct (voteType =? "upvote") eqn:Eu.
  - apply String.eqb_eq in Eu; auto.
  - destruct (voteType =? "downvote") eqn:Ed; simpl; [|discriminate].
    apply String.eqb_eq in Ed; auto.
Qed.

(** What one accepted vote request stores and answers. *)
Lemma vote_stored now user voteType c :
  validVoteType voteType = true ->
  exists c',
    vote now user voteType (Some c) =
      (Ok (mkVoteResult (List.length (upvotes c')) (List.length (downvotes c'))
                        (hasUserVoted c' (_id user))), Some c') /\
    upvotes c' =
      (others (_id user) (upvotes c) ++
       if (voteType =? "upvote") && negb (hasUpvoted c (_id user))
       then [Vote.mk (_id user) now] else [])%list /\
    downvotes c' =
      (others (_id user) (downvotes c) ++
       if (voteType =? "downvote") && negb (hasDownvoted c (_id user))
       then [Vote.mk (_id user) now] else [])%list /\
    set_upvotes (upvotes c) (set_downvotes (downvotes c) c') = c.
Proof.
  intros Hv. unfold vote. fold (validVoteType voteType). rewrite Hv.
  destruct (validVoteType_cases _ Hv) as [-> | ->];
    change ("upvote" =? "upvote") with true;
    change ("downvote" =? "upvote") with false;
    change ("downvote" =? "downvote") with true;
    change ("upvote" =? "downvote") with false;
    unfold hasUpvoted, hasDownvoted, others, castBy; cbn [negb andb];
    cbv zeta.
  - destruct (Js.some _ (upvotes (fields (hydrate c)))) eqn:E;
      cbn in E; rewrite E; cbn [negb andb]; eexists; (split; [reflexivity|]);
      destruct c; cbn; rewrite ?app_nil_r; auto.
  - destruct (Js.some _ (downvotes (fields (hydrate c)))) eqn:E;
      cbn in E; rewrite E; cbn [negb andb]; eexists; (split; [reflexivity|]);
      destruct c; cbn; rewrite ?app_nil_r; auto.
Qed.
End VoteFacts.

Section VoteTheorems.
Import Complaint Mongoose ComplaintView.

Lemma others_has_none userId l :
  Js.some (castBy userId) (others userId l) = false.
Proof. apply existsb_filter_negb. Qed.

Lemma some_push {A} (p : A -> bool) l x :
  Js.some p (l ++ [x])%list = Js.some p l || p x.
Proof.
  unfold Js.some. rewrite existsb_app. simpl.
  now rewrite orb_false_r.
Qed.

Lemma castBy_self userId now : castBy userId (Vote.mk userId now) = true.
Proof. unfold castBy, toString; simpl. apply String.eqb_refl. Qed.

Lemma others_keeps w userId l :
  toString w <> toString userId ->
  Js.some (castBy w) (others userId l) = Js.some (castBy w) l.
Proof.
  intros H. induction l as [|v l IH]; simpl; [reflexivity|].
  destruct (castBy userId v) eqn:Eu; simpl.
  - rewrite IH. unfold castBy in Eu. apply String.eqb_eq in Eu.
    replace (castBy w v) with false; [reflexivity|].
    symmetry. unfold castBy. apply String.eqb_neq. congruence.
  - now rewrite IH.
Qed.

Lemma others_idem userId l : others userId (others userId l) = others userId l.
Proof.
  apply filter_negb_none with (p := castBy userId), others_has_none.
Qed.

Lemma vote_exclusive_step now user voteType c :
  validVoteType voteType = true ->
  exists c',
    snd (vote now user voteType (Some c)) = Some c' /\
    hasUpvoted c' (_id user) && hasDownvoted c' (_id user) = false.
Proof.
  intros Hv. destruct (vote_stored now user voteType c Hv)
    as (c' & Hr & Hup & Hdn & _).
  exists c'. rewrite Hr. split; [reflexivity|].
  unfold hasUpvoted, hasDownvoted. rewrite Hup, Hdn.
  unfold Js.some. rewrite !existsb_app.
  fold (Js.some (castBy (_id user)) (others (_id user) (upvotes c))).
  fold (Js.some (castBy (_id user)) (others (_id user) (downvotes c))).
  rewrite !others_has_none.
  destruct (validVoteType_cases _ Hv) as [-> | ->]; simpl.
  - apply andb_false_r.
  - reflexivity.
Qed.

(** C1. Vote exclusivity: after each accepted vote request of a series by
    one user on one complaint, that user is in at most one of the upvote
    and downvote arrays (and every request of the series stores a
    document). *)
Theorem vote_exclusivity user calls c :
  Forall (fun call => validVoteType (snd call) = true) calls ->
  List.length (voteTrace user calls c) = List.length calls /\
  Forall (fun c' => hasUpvoted c' (_id user) && hasDownvoted c' (_id user) = false)
         (voteTrace user calls c).
Proof.
  intros H. revert c. induction H as [|[now voteType] calls Hv _ IH]; intros c.
  - split; [reflexivity | constructor].
  - simpl in Hv. destruct (vote_exclusive_step now user voteType c Hv)
      as (c' & Hs & Hex).
    simpl. rewrite Hs. destruct (IH c') as [Hlen Hall].
    split; [simpl; now rewrite Hlen | now constructor].
Qed.

Lemma vote_exclusivity_witness :
  let u := mkUser "64b0c0ffee0000000000000a" "citizen" "Asha" in
  let c := Complaint.mk "Pothole" "Deep pothole on main road" "Roads"
             "Submitted" "Medium" "64b0c0ffee0000000000000b" None
             [Vote.mk "64b0c0ffee0000000000000a" 5]
             [Vote.mk "64b0c0ffee0000000000000a" 6] [] [] None in
  let calls := [(10%Z, "downvote"); (11%Z, "downvote"); (12%Z, "upvote")] in
  List.length (voteTrace u calls c) = 3%nat /\
  Forall (fun c' => hasUpvoted c' (_id u) && hasDownvoted c' (_id u) = false)
         (voteTrace u calls c).
Proof.
  intros u c calls.
  apply (vote_exclusivity u calls c).
  repeat constructor.
Defined.
End VoteTheorems.

Section VoteToggleOff.
Import Complaint Mongoose ComplaintView.

Lemma hasUserVoted_none c userId :
  hasUserVoted c userId = None <->
  hasUpvoted c userId = false /\ hasDownvoted c userId = false.
Proof.
  unfold hasUserVoted, hasUpvoted, hasDownvoted, castBy.
  destruct (Js.some _ (upvotes c)); [split; [discriminate | intros [? _]; discriminate]|].
  destruct (Js.some _ (downvotes c)); [split; [discriminate | intros [_ ?]; discriminate]|].
  split; auto.
Qed.

Lemma frame_paths_eq x y a b a' b' :
  set_upvotes a' (set_downvotes b' y) = x ->
  set_upvotes a (set_downvotes b x) = set_upvotes a (set_downvotes b y).
Proof. intros <-. reflexivity. Qed.

Lemma others_none userId l :
  Js.some (castBy userId) l = false -> others userId l = l.
Proof. apply filter_negb_none. Qed.

(** C5, amended. For a user who holds no vote on the complaint, two upvote
    requests in succession answer first with one more upvote and state
    'upvote', then with the original counts and state none, and the stored
    complaint is the original one again. *)
Theorem vote_toggle_off_from_none now1 now2 user c :
  hasUserVoted c (_id user) = None ->
  fst (vote now1 user "upvote" (Some c)) =
    Ok (mkVoteResult (S (List.length (upvotes c))) (List.length (downvotes c))
                     (Some "upvote")) /\
  upvoteTwice now1 now2 user c = (restored c, Some c).
Proof.
  intros Hnone. apply hasUserVoted_none in Hnone as [Hup Hdn].
  unfold upvoteTwice.
  destruct (vote_stored now1 user "upvote" c eq_refl) as (c1 & Hr1 & Hu1 & Hd1 & Hf1).
  rewrite Hup in Hu1. rewrite Hdn in Hd1.
  change ("upvote" =? "upvote") with true in Hu1. cbn [negb andb] in Hu1.
  change ("upvote" =? "downvote") with false in Hd1. cbn [andb] in Hd1.
  rewrite others_none in Hu1 by exact Hup.
  rewrite others_none, app_nil_r in Hd1 by exact Hdn.
  assert (Hup1 : hasUpvoted c1 (_id user) = true).
  { unfold hasUpvoted. rewrite Hu1.
    rewrite some_push, castBy_self. apply orb_true_r. }
  rewrite Hr1. split.
  - cbn [fst]. unfold hasUserVoted. fold (castBy (_id user)).
    fold (hasUpvoted c1 (_id user)). rewrite Hup1, Hu1, Hd1.
    rewrite length_app. simpl. now rewrite Nat.add_1_r.
  - cbn [snd].
    destruct (vote_stored now2 user "upvote" c1 eq_refl) as (c2 & Hr2 & Hu2 & Hd2 & Hf2).
    rewrite Hup1 in Hu2. rewrite andb_false_r, app_nil_r in Hu2.
    change ("upvote" =? "downvote") with false in Hd2. cbn [andb] in Hd2.
    rewrite app_nil_r in Hd2.
    rewrite Hu1 in Hu2. unfold others in Hu2.
    rewrite filter_push_drop with (p := castBy (_id user)) in Hu2
      by apply castBy_self.
    fold (others (_id user) (upvotes c)) in Hu2.
    rewrite others_none in Hu2 by exact Hup.
    rewrite Hd1, others_none in Hd2 by exact Hdn.
    assert (Hc : c2 = c).
    { pose proof (frame_paths_eq _ _ (upvotes c) (downvotes c) _ _ Hf2) as E.
      rewrite Hf1 in E. rewrite <- Hu2, <- Hd2 in E.
      destruct c2; symmetry; exact E. }
    rewrite Hr2. subst c2. unfold restored.
    replace (hasUserVoted c (_id user)) with (@None string); [reflexivity|].
    symmetry. apply hasUserVoted_none. auto.
Qed.

Lemma vote_toggle_off_from_none_witness :
  let u := mkUser "64b0c0ffee0000000000000a" "citizen" "Asha" in
  let c := sample [Vote.mk "64b0c0ffee0000000000000c" 3] [] in
  fst (vote 10 u "upvote" (Some c)) =
    Ok (mkVoteResult 2 0 (Some "upvote")) /\
  upvoteTwice 10 11 u c = (restored c, Some c).
Proof.
  intros u c.
  apply (vote_toggle_off_from_none 10 11 u c).
  reflexivity.
Defined.

(** C5 as stated fails for a user who already holds a vote: after a prior
    downvote the two requests leave one downvote fewer, and after a prior
    upvote they leave the user in state 'upvote'. *)
Lemma vote_toggle_off_counterexample :
  let u := mkUser "64b0c0ffee0000000000000a" "citizen" "Asha" in
  let down := sample [] [Vote.mk "64b0c0ffee0000000000000a" 3] in
  let up := sample [Vote.mk "64b0c0ffee0000000000000a" 3] [] in
  fst (upvoteTwice 10 11 u down) = Ok (mkVoteResult 0 0 None) /\
  fst (upvoteTwice 10 11 u down) <> restored down /\
  fst (upvoteTwice 10 11 u up) = Ok (mkVoteResult 1 0 (Some "upvote")) /\
  fst (upvoteTwice 10 11 u up) <> restored up.
Proof.
  cbv zeta. repeat split; try reflexivity; vm_compute; discriminate.
Qed.
End VoteToggleOff.

Section VoteFrame.
Import Complaint Mongoose ComplaintView.

Lemma vote_rejected now user voteType found :
  validVoteType voteType = false ->
  vote now user voteType found = (Err 400 "Validation failed", found).
Proof.
  intros Hv. unfold vote. fold (validVoteType voteType). now rewrite Hv.
Qed.

Lemma others_after_push userId l extra :
  Forall (fun vote => castBy userId vote = true) extra ->
  others userId (others userId l ++ extra) = others userId l.
Proof.
  intros H. unfold others at 1. rewrite filter_app.
  fold (others userId (others userId l)). rewrite others_idem.
  replace (filter _ extra) with (@nil Vote.t); [apply app_nil_r|].
  induction H as [|v extra Hv _ IH]; simpl; [reflexivity|].
  now rewrite Hv.
Qed.

Lemma some_after_push w userId l extra :
  toString w <> toString userId ->
  Forall (fun vote => castBy userId vote = true) extra ->
  Js.some (castBy w) (others userId l ++ extra) = Js.some (castBy w) l.
Proof.
  intros Hw H. unfold Js.some. rewrite existsb_app.
  fold (Js.some (castBy w) (others userId l)). rewrite others_keeps by exact Hw.
  replace (existsb (castBy w) extra) with false; [apply orb_false_r|].
  induction H as [|v extra Hv _ IH]; simpl; [reflexivity|].
  rewrite <- IH, orb_false_r. unfold castBy in *.
  apply String.eqb_eq in Hv. symmetry. apply String.eqb_neq. congruence.
Qed.

Lemma pushed_is_own userId now (b : bool) :
  Forall (fun vote => castBy userId vote = true)
         (if b then [Vote.mk userId now] else []).
Proof.
  destruct b; repeat constructor. apply castBy_self.
Qed.

(** C10. Vote frame: a vote request of user [u] (whatever its vote type)
    keeps the votes of every other user as they are, in both arrays, hence
    the membership of any other user [w]; title, description, status,
    status history and comment list are unchanged. *)
Theorem vote_frame now user voteType c w :
  toString w <> toString (_id user) ->
  exists c',
    snd (vote now user voteType (Some c)) = Some c' /\
    others (_id user) (upvotes c') = others (_id user) (upvotes c) /\
    others (_id user) (downvotes c') = others (_id user) (downvotes c) /\
    hasUpvoted c' w = hasUpvoted c w /\
    hasDownvoted c' w = hasDownvoted c w /\
    title c' = title c /\
    description c' = description c /\
    status c' = status c /\
    statusHistory c' = statusHistory c /\
    comments c' = comments c.
Proof.
  intros Hw. destruct (validVoteType voteType) eqn:Hv.
  - destruct (vote_stored now user voteType c Hv) as (c' & Hr & Hup & Hdn & Hf).
    exists c'. rewrite Hr. split; [reflexivity|].
    unfold hasUpvoted, hasDownvoted. rewrite Hup, Hdn.
    rewrite !others_after_push by apply pushed_is_own.
    rewrite !some_after_push by (exact Hw || apply pushed_is_own).
    rewrite <- Hf. repeat split; reflexivity.
  - exists c. rewrite vote_rejected by exact Hv. repeat split; reflexivity.
Qed.

Lemma vote_frame_witness :
  let u := mkUser "64b0c0ffee0000000000000a" "citizen" "Asha" in
  let w : ObjectId := "64b0c0ffee0000000000000c" in
  let c := Complaint.mk "Pothole" "Deep pothole on main road" "Roads"
             "In Progress" "Medium" "64b0c0ffee0000000000000b" None
             [Vote.mk w 3; Vote.mk "64b0c0ffee0000000000000a" 4] []
             ["64b0c0ffee00000000000010"]
             [StatusEntry.mk "In Progress" (Some "64b0c0ffee0000000000000d") 2 None]
             None in
  exists c',
    snd (vote 10 u "downvote" (Some c)) = Some c' /\
    others (_id u) (upvotes c') = others (_id u) (upvotes c) /\
    others (_id u) (downvotes c') = others (_id u) (downvotes c) /\
    hasUpvoted c' w = hasUpvoted c w /\
    hasDownvoted c' w = hasDownvoted c w /\
    title c' = title c /\
    description c' = description c /\
    status c' = status c /\
    statusHistory c' = statusHistory c /\
    comments c' = comments c.
Proof.
  intros u w c.
  apply (vote_frame 10 u "downvote" c w).
  discriminate.
Defined.
End VoteFrame.

Section StatusHistory.
Import Complaint Mongoose ComplaintView.

(** What an accepted status update appends: the handler's entry, then the
    hook's entry when the status differs from the stored one. *)
Lemma updateStatus_history now user status0 comment0 c :
  statusValid status0 comment0 = true ->
  statusAuthorized user c = true ->
  exists c',
    updateStatus now user status0 comment0 (Some c) = (Ok c', Some c') /\
    status c' = status0 /\
    statusHistory c' =
      (statusHistory c ++
       StatusEntry.mk status0 (Some (_id user)) now
                      (option_map Validator.trim comment0) ::
       if status0 =? status c then []
       else [StatusEntry.mk status0 None now None])%list.
Proof.
  intros Hv Ha. unfold updateStatus. unfold statusValid in Hv. rewrite Hv.
  cbn [negb]. cbv zeta.
  replace (negb (role user =? "admin") && _) with false.
  2:{ unfold statusAuthorized in Ha. cbn [fields hydrate].
      destruct (role user =? "admin"); [reflexivity|]. cbn in Ha |- *.
      destruct (assignedTo c); [now rewrite Ha | discriminate]. }
  unfold assign, hydrate. cbn [isNew fields modifiedPaths orb].
  destruct (status0 =? status c) eqn:Es; cbn [negb].
  - apply String.eqb_eq in Es.
    destruct (status0 =? "Resolved"); eexists; (split; [reflexivity|]);
      cbn; rewrite <- Es; auto.
  - destruct (status0 =? "Resolved"); eexists; (split; [reflexivity|]);
      cbn; rewrite <- app_assoc; auto.
Qed.
End StatusHistory.

Section StatusHistoryRun.
Import Complaint Mongoose ComplaintView.

(** C2 on the code: an admin moves a complaint from Submitted to In
    Progress and then to Resolved.  Each change leaves two entries in the
    status history, the handler's with the acting user and the hook's
    without, so the log has length 4. *)
Theorem status_change_logged_twice :
  let admin := mkUser "64b0c0ffee000000000000ad" "admin" "Meera" in
  let c0 := sample [] [] in
  exists c1 c2,
    updateStatus 100 admin "In Progress" None (Some c0) = (Ok c1, Some c1) /\
    updateStatus 200 admin "Resolved" (Some "fixed") (Some c1) = (Ok c2, Some c2) /\
    status c2 = "Resolved" /\
    statusHistory c2 =
      [StatusEntry.mk "In Progress" (Some (_id admin)) 100 None;
       StatusEntry.mk "In Progress" None 100 None;
       StatusEntry.mk "Resolved" (Some (_id admin)) 200 (Some "fixed");
       StatusEntry.mk "Resolved" None 200 None] /\
    List.length (statusHistory c2) = 4%nat /\
    map StatusEntry.changedBy (statusHistory c2) =
      [Some (_id admin); None; Some (_id admin); None].
Proof.
  do 2 eexists. split; [reflexivity|]. split; [reflexivity|].
  repeat split.
Qed.
End StatusHistoryRun.

Section CommentFacts.
Import Comment Mongoose CommentView.

Lemma within_window now created :
  (now <= created + editWindow)%Z ->
  Qle_bool (inject_Z (now - created) / inject_Z msPerHour) 24 = true.
Proof.
  intros H. apply Qle_bool_iff. unfold Qle, Qdiv, Qmult, Qinv, inject_Z.
  unfold editWindow in H. simpl. lia.
Qed.

Lemma after_window now created :
  (created + editWindow < now)%Z ->
  Qle_bool (inject_Z (now - created) / inject_Z msPerHour) 24 = false.
Proof.
  intros H. apply not_true_is_false. intros Hle.
  apply Qle_bool_iff in Hle. unfold Qle, Qdiv, Qmult, Qinv, inject_Z in Hle.
  unfold editWindow in H. simpl in Hle. lia.
Qed.

(** C8. Edit window: an edit request with an acceptable body for a comment
    created more than 24 hours before is answered 403, by the author with
    'Comment is too old to edit', and the stored comment (content, edit
    history, edited flag and all) is the one that was read. *)
Theorem edit_after_window_rejected now user content0 c :
  Validator.isLength 1 500 (Validator.trim content0) = true ->
  (createdAt c + editWindow < now)%Z ->
  update now user content0 (Some c) =
    (Err 403 (if toString (author c) =? toString (_id user)
              then "Comment is too old to edit"
              else "Not authorized to edit this comment"),
     Some c).
Proof.
  intros Hv Hold. unfold update. rewrite Hv. cbn [negb]. cbv zeta.
  cbn [fields hydrate].
  destruct (toString (author c) =? toString (_id user)); cbn [negb].
  - now rewrite after_window.
  - reflexivity.
Qed.

Lemma edit_after_window_rejected_witness :
  let u := mkUser "64b0c0ffee0000000000000a" "citizen" "Asha" in
  let c := sample "Streetlight is broken" [] in
  update 86401001 u "Streetlight is fixed" (Some c) =
    (Err 403 "Comment is too old to edit", Some c).
Proof.
  intros u c.
  apply (edit_after_window_rejected 86401001 u "Streetlight is fixed" c).
  - reflexivity.
  - reflexivity.
Defined.
End CommentFacts.

Section EditHistory.
Import Comment Mongoose CommentView.

(** What an accepted edit stores: the handler logs the old content, then
    the hook logs the content it finds at save time, the new one. *)
Lemma update_history now user content0 c :
  Validator.isLength 1 500 (Validator.trim content0) = true ->
  toString (author c) = toString (_id user) ->
  (now <= createdAt c + editWindow)%Z ->
  exists c',
    update now user content0 (Some c) = (Ok c', Some c') /\
    content c' = Validator.trim content0 /\
    isEdited c' = true /\
    editHistory c' =
      (editHistory c ++
       Edit.mk (content c) now ::
       if Validator.trim content0 =? content c then []
       else [Edit.mk (Validator.trim content0) now])%list.
Proof.
  intros Hv Ha Hw. unfold update. rewrite Hv. cbn [negb]. cbv zeta.
  cbn [fields hydrate]. rewrite Ha, String.eqb_refl. cbn [negb].
  rewrite within_window by exact Hw. cbn [negb].
  unfold assign_content, assign, hydrate. cbn [isNew fields modifiedPaths orb].
  rewrite trim_idem.
  destruct (Validator.trim content0 =? content c) eqn:Ec; cbn [negb].
  - apply String.eqb_eq in Ec. eexists; split; [reflexivity|]. cbn. auto.
  - eexists; split; [reflexivity|]. cbn. rewrite <- app_assoc. auto.
Qed.

(** C3 on the code: editing "Streetlight is broken" to "Streetlight is
    fixed" leaves two new entries in the edit history; the most recent one
    holds the new content, not the one before the edit. *)
Theorem edit_history_last_entry_is_new_content :
  let u := mkUser "64b0c0ffee0000000000000a" "citizen" "Asha" in
  let c := sample "Streetlight is broken" [] in
  exists c',
    update 2000 u "Streetlight is fixed" (Some c) = (Ok c', Some c') /\
    content c' = "Streetlight is fixed" /\
    isEdited c' = true /\
    editHistory c' = [Edit.mk "Streetlight is broken" 2000;
                      Edit.mk "Streetlight is fixed" 2000] /\
    option_map Edit.content (lastEdit c') = Some "Streetlight is fixed".
Proof.
  eexists. split; [reflexivity|]. repeat split.
Qed.

Lemma trim_placeholder : Validator.trim placeholder = placeholder.
Proof. reflexivity. Qed.

(** C4, amended. A permitted delete request sets the deleted flag and
    timestamp and stores the placeholder as content; likes and replies are
    kept.  Unless the content was the placeholder already, the save hook
    appends one entry to the edit history and sets the edited flag; the
    earlier entries stay. *)
Theorem softDelete_effect now user c :
  mayDelete user c = true ->
  exists c' logged,
    softDelete now user (Some c) = (Ok "Comment deleted successfully", Some c') /\
    isDeleted c' = true /\
    deletedAt c' = Some now /\
    content c' = placeholder /\
    editHistory c' = (editHistory c ++ logged)%list /\
    List.length logged = (if content c =? placeholder then 0%nat else 1%nat) /\
    isEdited c' = (if content c =? placeholder then isEdited c else true) /\
    likes c' = likes c /\
    replies c' = replies c.
Proof.
  intros Hm. unfold softDelete. cbv zeta. cbn [fields hydrate].
  replace (negb _ && negb _) with false.
  2:{ unfold mayDelete in Hm. rewrite <- negb_orb. now rewrite Hm. }
  unfold assign_content, assign, hydrate, mutate.
  cbn [isNew fields modifiedPaths orb]. rewrite trim_placeholder.
  replace (placeholder =? content (set_deletedAt (Some now) (set_isDeleted true c)))
    with (content c =? placeholder) by (cbn; apply String.eqb_sym).
  destruct (content c =? placeholder) eqn:Ec; cbn [negb].
  - apply String.eqb_eq in Ec. exists (set_deletedAt (Some now) (set_isDeleted true c)), [].
    split; [reflexivity|]. cbn. rewrite app_nil_r. auto 10.
  - eexists. exists [Edit.mk placeholder now].
    split; [reflexivity|]. cbn. auto 10.
Qed.

Lemma softDelete_effect_witness :
  let u := mkUser "64b0c0ffee0000000000000a" "citizen" "Asha" in
  let c := sample "Streetlight is broken" [Edit.mk "Streetlight broken" 1500] in
  exists c' logged,
    softDelete 3000 u (Some c) = (Ok "Comment deleted successfully", Some c') /\
    isDeleted c' = true /\
    deletedAt c' = Some 3000%Z /\
    content c' = placeholder /\
    editHistory c' = (editHistory c ++ logged)%list /\
    List.length logged = 1%nat /\
    isEdited c' = true /\
    likes c' = likes c /\
    replies c' = replies c.
Proof.
  intros u c.
  apply (softDelete_effect 3000 u c).
  reflexivity.
Defined.

(** C4 as stated fails: deleting a comment whose history is empty leaves a
    history of one entry. *)
Lemma softDelete_logs_counterexample :
  let u := mkUser "64b0c0ffee0000000000000a" "citizen" "Asha" in
  let c := sample "Streetlight is broken" [] in
  exists c',
    softDelete 3000 u (Some c) = (Ok "Comment deleted successfully", Some c') /\
    isDeleted c' = true /\
    content c' = placeholder /\
    editHistory c' <> editHistory c.
Proof.
  eexists. split; [reflexivity|]. repeat split. discriminate.
Qed.
End EditHistory.

Section LikeFacts.
Import Comment Mongoose CommentView.

(** What one like request stores and answers. *)
Lemma like_stored now user c :
  exists c',
    like now user (Some c) =
      (Ok (mkLikeResult
             (if hasUserLiked c (_id user) then "Comment unliked" else "Comment liked")
             (List.length (likes c'))
             (negb (hasUserLiked c (_id user)))),
       Some c') /\
    likes c' =
      (if hasUserLiked c (_id user)
       then filter (fun like => negb (likedBy (_id user) like)) (likes c)
       else likes c ++ [Like.mk (_id user) now])%list /\
    set_likes (likes c) c' = c.
Proof.
  unfold like, hasUserLiked, likedBy. cbv zeta. cbn [fields hydrate].
  destruct (Js.some _ (likes c)) eqn:E; eexists; (split; [reflexivity|]);
    destruct c; cbn; auto.
Qed.

Lemma likedBy_self userId now : likedBy userId (Like.mk userId now) = true.
Proof. unfold likedBy, toString; simpl. apply String.eqb_refl. Qed.

Lemma hasUserLiked_flips now user c c' :
  snd (like now user (Some c)) = Some c' ->
  hasUserLiked c' (_id user) = negb (hasUserLiked c (_id user)).
Proof.
  destruct (like_stored now user c) as (c1 & Hr & Hl & _).
  rewrite Hr. cbn [snd]. intros [= <-].
  unfold hasUserLiked at 1. fold (likedBy (_id user)). rewrite Hl.
  destruct (hasUserLiked c (_id user)) eqn:E; cbn [negb].
  - apply existsb_filter_negb.
  - unfold Js.some. rewrite existsb_app. cbn [existsb].
    rewrite likedBy_self. apply orb_true_r.
Qed.

Lemma likeTimes_parity user nows : forall c,
  exists c',
    likeTimes user nows c = Some c' /\
    hasUserLiked c' (_id user) =
      xorb (Nat.odd (List.length nows)) (hasUserLiked c (_id user)).
Proof.
  induction nows as [|now nows IH]; intros c.
  - exists c. split; [reflexivity|]. now destruct (hasUserLiked c (_id user)).
  - destruct (like_stored now user c) as (c1 & Hr & _).
    pose proof (hasUserLiked_flips now user c c1) as Hf.
    rewrite Hr in Hf. specialize (Hf eq_refl).
    destruct (IH c1) as (c' & Hrun & Hp). exists c'.
    cbn [likeTimes]. rewrite Hr. cbn [snd]. split; [exact Hrun|].
    rewrite Hp, Hf. cbn [List.length]. rewrite Nat.odd_succ, <- Nat.negb_odd.
    destruct (Nat.odd (List.length nows)), (hasUserLiked c (_id user)); reflexivity.
Qed.

Lemma likeUsers_notin userId l :
  existsb (likedBy userId) l = false -> ~ In userId (map Like.user l).
Proof.
  induction l as [|x l IH]; simpl; [tauto|].
  intros H [Hx | Hin]; apply orb_false_iff in H as [H1 H2].
  - unfold likedBy, toString in H1. apply String.eqb_neq in H1. congruence.
  - now apply IH.
Qed.

(** In a list without duplicates, removing the likes of a user and
    adding one of that user is a rearrangement. *)
Lemma unlike_like_perm userId now l :
  NoDup (map Like.user l) ->
  existsb (likedBy userId) l = true ->
  Permutation
    (map Like.user (filter (fun like => negb (likedBy userId like)) l ++
                    [Like.mk userId now]))
    (map Like.user l).
Proof.
  induction l as [|x l IH]; simpl; [discriminate|].
  intros Hnd Hex. inversion Hnd as [|? ? Hnotin Hnd']; subst.
  destruct (likedBy userId x) eqn:Ex; simpl.
  - unfold likedBy, toString in Ex. apply String.eqb_eq in Ex.
    rewrite filter_negb_none.
    + rewrite map_app. simpl. rewrite <- Ex.
      symmetry. apply Permutation_cons_append.
    + destruct (existsb (likedBy userId) l) eqn:El; [|reflexivity].
      exfalso. apply Hnotin. apply existsb_exists in El as (y & Hy & Ey).
      unfold likedBy, toString in Ey. apply String.eqb_eq in Ey.
      rewrite Ex, <- Ey. now apply in_map.
  - apply perm_skip. now apply IH.
Qed.

(** C9. Like toggle parity: on a like array without duplicate users, two
    like requests of one user in succession are both answered, the second
    with the original count and the original membership, and leave the
    same users in the array and every other path of the comment as it was;
    after any number of requests the user's membership is the initial one
    flipped when that number is odd. *)
Theorem like_toggle_parity now1 now2 nows user c :
  NoDup (likeUsers c) ->
  (exists r1 c1 r2 c2,
     like now1 user (Some c) = (Ok r1, Some c1) /\
     like now2 user (Some c1) = (Ok r2, Some c2) /\
     Permutation (likeUsers c2) (likeUsers c) /\
     likeCount r2 = List.length (likes c) /\
     hasLiked r2 = hasUserLiked c (_id user) /\
     set_likes (likes c) c2 = c) /\
  (exists cn,
     likeTimes user nows c = Some cn /\
     hasUserLiked cn (_id user) =
       xorb (Nat.odd (List.length nows)) (hasUserLiked c (_id user))).
Proof.
  intros Hnd. split; [|apply likeTimes_parity].
  destruct (like_stored now1 user c) as (c1 & Hr1 & Hl1 & Hf1).
  destruct (like_stored now2 user c1) as (c2 & Hr2 & Hl2 & Hf2).
  pose proof (hasUserLiked_flips now1 user c c1) as Hflip.
  rewrite Hr1 in Hflip. specialize (Hflip eq_refl).
  do 4 eexists. split; [exact Hr1|]. split; [exact Hr2|].
  cbn [likeCount hasLiked]. rewrite Hflip, negb_involutive.
  rewrite Hflip in Hl2.
  assert (Hperm : Permutation (likeUsers c2) (likeUsers c)).
  { unfold likeUsers. rewrite Hl2, Hl1.
    destruct (hasUserLiked c (_id user)) eqn:E; cbn [negb].
    - now apply unlike_like_perm.
    - rewrite filter_app. cbn [filter]. rewrite likedBy_self. cbn [negb].
      rewrite app_nil_r, filter_negb_none by exact E. reflexivity. }
  split; [exact Hperm|]. split.
  - apply Permutation_length in Hperm. unfold likeUsers in Hperm.
    now rewrite !length_map in Hperm.
  - split; [reflexivity|]. rewrite <- Hf1 at 2. rewrite <- Hf2. reflexivity.
Qed.

Lemma like_toggle_parity_witness :
  let u := mkUser "64b0c0ffee0000000000000a" "citizen" "Asha" in
  let c := Comment.mk "Streetlight is broken" "64b0c0ffee0000000000000b"
             (Some "64b0c0ffee00000000000001") None None []
             [Like.mk "64b0c0ffee0000000000000a" 1200;
              Like.mk "64b0c0ffee0000000000000c" 1300]
             false [] false None 1000 in
  (exists r1 c1 r2 c2,
     like 2000 u (Some c) = (Ok r1, Some c1) /\
     like 2001 u (Some c1) = (Ok r2, Some c2) /\
     Permutation (likeUsers c2) (likeUsers c) /\
     likeCount r2 = 2%nat /\
     hasLiked r2 = true /\
     set_likes (likes c) c2 = c) /\
  (exists cn,
     likeTimes u [2000; 2001; 2002]%Z c = Some cn /\
     hasUserLiked cn (_id u) = false).
Proof.
  intros u c.
  apply (like_toggle_parity 2000 2001 [2000; 2001; 2002]%Z u c).
  vm_compute. repeat constructor; simpl; intuition discriminate.
Defined.
End LikeFacts.

Section LikeInvariant.
Import Comment Mongoose CommentView.

(** A comment made by the create handler has no like, no edit and is
    neither edited nor deleted: the hook does not fire on a new document. *)
Lemma lookup_stored {B} castObjectId exists_ o message
    (rest : Reply B * option t) c :
  snd (lookup castObjectId exists_ o message rest) = Some c ->
  snd rest = Some c.
Proof.
  unfold lookup. destruct o as [s|]; [|auto].
  destruct (s =? ""); [auto|].
  destruct (castObjectId s) as [i|]; cbn [snd]; [|discriminate].
  destruct (exists_ i); cbn [snd]; [auto | discriminate].
Qed.

Lemma create_fresh {B} (populated : t -> B) isHexadecimal castObjectId
    complaintExists postExists commentExists now user content0 o1 o2 o3 c :
  snd (create populated isHexadecimal castObjectId complaintExists postExists
              commentExists now user content0 o1 o2 o3) = Some c ->
  likes c = [] /\ editHistory c = [] /\ isEdited c = false /\
  isDeleted c = false /\ author c = _id user /\ createdAt c = now.
Proof.
  unfold create. cbv zeta.
  destruct (negb (_ && _ && _ && _)); cbn [snd]; [discriminate|].
  destruct (negb _ && negb _); cbn [snd]; [discriminate|].
  intros H. do 3 apply lookup_stored in H.
  destruct (reference castObjectId o1), (reference castObjectId o2),
    (reference castObjectId o3); cbn [snd] in H; try discriminate.
  injection H as <-. cbn. auto 10.
Qed.

(** Like requests keep the like array free of duplicate users. *)
Lemma like_NoDup now user c c' :
  NoDup (likeUsers c) ->
  snd (like now user (Some c)) = Some c' ->
  NoDup (likeUsers c').
Proof.
  intros Hnd. destruct (like_stored now user c) as (c1 & Hr & Hl & _).
  rewrite Hr. cbn [snd]. intros [= <-]. unfold likeUsers. rewrite Hl.
  destruct (hasUserLiked c (_id user)) eqn:E.
  - now apply NoDup_map_filter.
  - apply NoDup_map_push; [exact Hnd|]. cbn [Like.user].
    now apply likeUsers_notin.
Qed.
End LikeInvariant.

Section CommunityFacts.
Import Community.

Lemma isMember_In c userId :
  isMember c userId = true <-> In userId (memberUsers c).
Proof.
  unfold isMember, memberUsers, Js.some. rewrite existsb_exists. split.
  - intros (m & Hin & Hm). apply String.eqb_eq in Hm. unfold toString in Hm.
    rewrite <- Hm. now apply in_map.
  - intros Hin. apply in_map_iff in Hin as (m & Hm & Hin).
    exists m. split; [assumption|]. apply String.eqb_eq. exact Hm.
Qed.

Lemma isMember_notin c userId :
  isMember c userId = false -> ~ In userId (memberUsers c).
Proof.
  intros H Hin. apply isMember_In in Hin. congruence.
Qed.

Lemma create_stored {B} (populated : t -> B) now user name0 description0
    category0 p r slugFree c :
  snd (create populated now user name0 description0 category0 p r None slugFree)
    = Some c ->
  createdBy c = _id user /\
  members c = [Member.mk (_id user) now "admin"] /\
  moderators c = [_id user].
Proof.
  unfold create. cbv zeta.
  destruct (negb _); cbn [snd]; [discriminate|].
  destruct slugFree; cbn [snd]; [|discriminate].
  intros [= <-]. cbn. auto.
Qed.

Lemma join_stored now user c c' :
  snd (join now user (Some c)) = Some c' ->
  c' = c \/
  (isMember c (_id user) = false /\
   c' = set_members (members c ++ [Member.mk (_id user) now "member"]) c).
Proof.
  unfold join. destruct (isMember c (_id user)) eqn:E; cbn [snd].
  - intros [= <-]. now left.
  - unfold addMember. rewrite E. cbn [negb snd]. intros [= <-]. now right.
Qed.

Lemma leave_stored user c c' :
  snd (leave user (Some c)) = Some c' ->
  c' = c \/
  (toString (createdBy c) <> toString (_id user) /\
   c' = removeMember c (_id user)).
Proof.
  unfold leave. destruct (negb (isMember c (_id user))); cbn [snd].
  - intros [= <-]. now left.
  - destruct (toString (createdBy c) =? toString (_id user)) eqn:E; cbn [snd].
    + intros [= <-]. now left.
    + intros [= <-]. right. split; [|reflexivity]. now apply String.eqb_neq.
Qed.

(** The invariants of the stored communities: the creator is a member
    and no user is a member twice. *)
Lemma reachable_invariant c :
  reachable c ->
  isMember c (createdBy c) = true /\ NoDup (memberUsers c).
Proof.
  induction 1 as [now user n d g p r sf c Hc
                 | now user c c' _ [IHm IHn] Hj
                 | user c c' _ [IHm IHn] Hl
                 | postId c _ [IHm IHn]].
  4:{ split; [exact IHm | exact IHn]. }
  - apply create_stored in Hc as (Hb & Hm & _).
    unfold isMember, memberUsers. rewrite Hb, Hm. simpl.
    unfold toString. rewrite String.eqb_refl. split; [reflexivity|].
    repeat constructor. simpl. tauto.
  - apply join_stored in Hj as [-> | [Hn ->]]; [now split|].
    split.
    + unfold isMember, Js.some in *. cbn [members createdBy set_members].
      rewrite existsb_app, IHm. reflexivity.
    + unfold memberUsers. cbn.
      apply NoDup_map_push; [exact IHn|]. now apply isMember_notin.
  - apply leave_stored in Hl as [-> | [Hne ->]]; [now split|].
    split.
    + unfold isMember, removeMember, Js.some in *.
      cbn [members createdBy set_members]. apply existsb_exists in IHm as (m & Hin & Hm).
      apply existsb_exists. exists m. split; [|exact Hm].
      apply filter_In. split; [exact Hin|].
      apply negb_true_iff, String.eqb_neq. apply String.eqb_eq in Hm.
      congruence.
    + unfold memberUsers, removeMember. cbn. now apply NoDup_map_filter.
Qed.

(** The leave handler answers the creator with 400 and stores nothing
    new, whatever the member list holds. *)
Lemma leave_by_creator_rejected user c :
  toString (createdBy c) = toString (_id user) ->
  exists message, leave user (Some c) = (Err 400 message, Some c).
Proof.
  intros Hc. unfold leave.
  destruct (negb (isMember c (_id user))); [eauto|].
  rewrite Hc, String.eqb_refl. eauto.
Qed.

(** C6. Creator immutability, for every community: the creator's leave
    request is always answered with the error 400, 'Community creator cannot
    leave the community' when the creator is in the member list ('Not a
    member of this community' otherwise); [removeMember] is not reached and
    the stored community is the one that was read, so its member list is
    not shrunk and a creator who is in it remains in it. *)
Theorem creator_cannot_leave user c :
  toString (createdBy c) = toString (_id user) ->
  exists c',
    leave user (Some c) =
      (Err 400 (if isMember c (createdBy c)
                then "Community creator cannot leave the community"
                else "Not a member of this community"), Some c') /\
    c' = c /\
    members c' = members c /\
    isMember c' (createdBy c') = isMember c (createdBy c).
Proof.
  intros Hc. exists c. split; [|now repeat split].
  unfold leave. replace (_id user) with (createdBy c) by exact Hc.
  destruct (isMember c (createdBy c)); cbn [negb]; [|reflexivity].
  now rewrite String.eqb_refl.
Qed.
End CommunityFacts.

Section MembershipTheorems.
Import Community.

Lemma creator_cannot_leave_witness :
  let u := mkUser "64b0c0ffee0000000000000a" "citizen" "Asha" in
  let w := mkUser "64b0c0ffee0000000000000c" "citizen" "Ravi" in
  let c := Community.mk "Ward 12 Residents"
             "Neighbours of ward 12 reporting civic issues" "General"
             (_id u) [_id u]
             [Member.mk (_id u) 10 "admin"; Member.mk (_id w) 20 "member"]
             ["64b0c0ffee000000000000f1"] false false in
  exists c',
    leave u (Some c) =
      (Err 400 "Community creator cannot leave the community", Some c') /\
    c' = c /\
    members c' = members c /\
    isMember c' (createdBy c') = true.
Proof.
  intros u w c.
  apply (creator_cannot_leave u c).
  reflexivity.
Defined.

Lemma addMember_stored now c userId :
  addMember now c userId =
    if isMember c userId then c
    else set_members (members c ++ [Member.mk userId now "member"]) c.
Proof.
  unfold addMember. now destruct (isMember c userId).
Qed.

Lemma isMember_after_add now c userId :
  isMember (addMember now c userId) userId = true.
Proof.
  rewrite addMember_stored. destruct (isMember c userId) eqn:E; [exact E|].
  unfold isMember, Js.some. cbn [members set_members].
  rewrite existsb_app. cbn [existsb Member.user].
  unfold toString. rewrite String.eqb_refl. apply orb_true_r.
Qed.

Lemma addMember_NoDup now c userId :
  NoDup (memberUsers c) -> NoDup (memberUsers (addMember now c userId)).
Proof.
  intros H. rewrite addMember_stored.
  destruct (isMember c userId) eqn:E; [exact H|].
  unfold memberUsers. cbn [members set_members].
  apply NoDup_map_push; [exact H|]. now apply isMember_notin.
Qed.

(** C7. Membership uniqueness, for every community whose member list has
    no duplicate user (and every user): the second of two [addMember] calls
    for one user changes nothing, the first changes nothing when the user is
    a member already and appends one record otherwise; afterwards the user
    has exactly one member record and the member list still has no duplicate
    user, so [addMember] never introduces one. *)
Theorem addMember_twice_one_record now1 now2 c userId :
  NoDup (memberUsers c) ->
  addMember now2 (addMember now1 c userId) userId = addMember now1 c userId /\
  (if isMember c userId
   then addMember now1 c userId = c
   else members (addMember now1 c userId) =
          (members c ++ [Member.mk userId now1 "member"])%list) /\
  count_occ string_dec
    (memberUsers (addMember now2 (addMember now1 c userId) userId)) userId = 1%nat /\
  NoDup (memberUsers (addMember now2 (addMember now1 c userId) userId)).
Proof.
  intros Hnd.
  assert (Hidem : addMember now2 (addMember now1 c userId) userId
                  = addMember now1 c userId).
  { rewrite (addMember_stored now2). now rewrite isMember_after_add. }
  rewrite Hidem. split; [reflexivity|]. split.
  - rewrite addMember_stored. now destruct (isMember c userId).
  - pose proof (addMember_NoDup now1 c userId Hnd) as Hnd1.
    split; [|exact Hnd1].
    apply NoDup_count_occ'; [exact Hnd1|].
    apply isMember_In, isMember_after_add.
Qed.

Lemma addMember_twice_one_record_witness :
  let u := mkUser "64b0c0ffee0000000000000a" "citizen" "Asha" in
  let w : ObjectId := "64b0c0ffee0000000000000c" in
  let c := Community.mk "Ward 12 Residents"
             "Neighbours of ward 12 reporting civic issues" "General"
             (_id u) [_id u] [Member.mk (_id u) 10 "admin"]
             ["64b0c0ffee000000000000f1"] false false in
  addMember 31 (addMember 30 c w) w = addMember 30 c w /\
  members (addMember 30 c w) =
    [Member.mk (_id u) 10 "admin"; Member.mk w 30 "member"] /\
  count_occ string_dec (memberUsers (addMember 31 (addMember 30 c w) w)) w = 1%nat /\
  NoDup (memberUsers (addMember 31 (addMember 30 c w) w)).
Proof.
  intros u w c.
  apply (addMember_twice_one_record 30 31 c w).
  apply NoDup_cons; [simpl; tauto | apply NoDup_nil].
Defined.
End MembershipTheorems.

Section ComplaintMoreFacts.
Import Complaint Mongoose ComplaintView ComplaintMore.

Lemma voters_others w userId l :
  In w (voters (others userId l)) <-> In w (voters l) /\ w <> userId.
Proof.
  unfold voters, others. rewrite !in_map_iff. split.
  - intros (v & Hv & Hin). apply filter_In in Hin as [Hin Hn].
    split; [now exists v|]. intros ->.
    apply negb_true_iff in Hn. unfold castBy, toString in Hn.
    apply String.eqb_neq in Hn. congruence.
  - intros [(v & Hv & Hin) Hne]. exists v. split; [exact Hv|].
    apply filter_In. split; [exact Hin|].
    apply negb_true_iff, String.eqb_neq. unfold toString. congruence.
Qed.

Lemma voters_push l userId now (b : bool) w :
  In w (voters (l ++ if b then [Vote.mk userId now] else [])) <->
  In w (voters l) \/ (b = true /\ w = userId).
Proof.
  unfold voters. rewrite map_app, in_app_iff.
  destruct b; simpl; intuition congruence.
Qed.

Lemma NoDup_voters_push l userId now (b : bool) :
  NoDup (voters l) -> ~ In userId (voters l) ->
  NoDup (voters (l ++ if b then [Vote.mk userId now] else [])).
Proof.
  intros Hnd Hnotin. destruct b.
  - apply NoDup_map_push; assumption.
  - now rewrite app_nil_r.
Qed.

(** X1. An accepted vote answers with the lengths of the stored arrays and
    with the user's new state: none when the user already held the vote
    type of the request, that vote type otherwise. *)
Theorem vote_reply_toggle now user voteType c :
  validVoteType voteType = true ->
  exists c' r,
    vote now user voteType (Some c) = (Ok r, Some c') /\
    upvoteCount r = List.length (upvotes c') /\
    downvoteCount r = List.length (downvotes c') /\
    userVote r = hasUserVoted c' (_id user) /\
    userVote r =
      (if (if voteType =? "upvote" then hasUpvoted c (_id user)
           else hasDownvoted c (_id user))
       then None else Some voteType).
Proof.
  intros Hv. destruct (vote_stored now user voteType c Hv)
    as (c' & Hr & Hup & Hdn & _).
  exists c'. eexists. split; [exact Hr|]. cbn [upvoteCount downvoteCount userVote].
  repeat split.
  unfold hasUserVoted. fold (castBy (_id user)). rewrite Hup, Hdn.
  unfold Js.some. rewrite !existsb_app.
  fold (Js.some (castBy (_id user)) (others (_id user) (upvotes c))).
  fold (Js.some (castBy (_id user)) (others (_id user) (downvotes c))).
  rewrite !others_has_none. cbn [orb].
  destruct (validVoteType_cases _ Hv) as [-> | ->];
    change ("upvote" =? "upvote") with true;
    change ("downvote" =? "upvote") with false;
    change ("downvote" =? "downvote") with true;
    change ("upvote" =? "downvote") with false; cbn [andb].
  - destruct (hasUpvoted c (_id user)); cbn [negb existsb]; [reflexivity|].
    now rewrite castBy_self.
  - destruct (hasDownvoted c (_id user)); cbn [negb existsb]; [reflexivity|].
    now rewrite castBy_self.
Qed.

Lemma vote_reply_toggle_witness :
  let u := mkUser "64b0c0ffee0000000000000a" "citizen" "Asha" in
  let c := sample [] [Vote.mk "64b0c0ffee0000000000000a" 3] in
  exists c' r,
    vote 10 u "upvote" (Some c) = (Ok r, Some c') /\
    upvoteCount r = List.length (upvotes c') /\
    downvoteCount r = List.length (downvotes c') /\
    userVote r = hasUserVoted c' (_id u) /\
    userVote r = Some "upvote".
Proof.
  intros u c.
  apply (vote_reply_toggle 10 u "upvote" c).
  reflexivity.
Defined.

(** X2. Vote requests keep the vote arrays well formed: when no user has
    two entries in an array and nobody is in both, the same holds of the
    complaint stored by any vote request of any user. *)
Theorem vote_keeps_votes_well_formed now user voteType c :
  votesWellFormed c ->
  exists c',
    snd (vote now user voteType (Some c)) = Some c' /\ votesWellFormed c'.
Proof.
  intros (Hu & Hd & Hdis). destruct (validVoteType voteType) eqn:Hv.
  2:{ exists c. rewrite vote_rejected by exact Hv. now repeat split. }
  destruct (vote_stored now user voteType c Hv) as (c' & Hr & Hup & Hdn & _).
  exists c'. rewrite Hr. split; [reflexivity|].
  unfold votesWellFormed. rewrite Hup, Hdn.
  assert (Hnu : forall l, ~ In (_id user) (voters (others (_id user) l))).
  { intros l Hin. apply voters_others in Hin as [_ Hne]. now apply Hne. }
  split; [|split].
  - apply NoDup_voters_push; [|apply Hnu].
    unfold voters, others. now apply NoDup_map_filter.
  - apply NoDup_voters_push; [|apply Hnu].
    unfold voters, others. now apply NoDup_map_filter.
  - intros w Hw Hw'. apply voters_push in Hw. apply voters_push in Hw'.
    destruct Hw as [Hw | [Hb ->]], Hw' as [Hw' | [Hb' Hw']].
    + apply voters_others in Hw as [Hw _]. apply voters_others in Hw' as [Hw' _].
      now apply (Hdis w).
    + apply voters_others in Hw as [_ Hne]. contradiction.
    + now apply (Hnu (downvotes c)).
    + apply andb_true_iff in Hb as [Hb _]. apply andb_true_iff in Hb' as [Hb' _].
      apply String.eqb_eq in Hb, Hb'. congruence.
Qed.

Lemma vote_keeps_votes_well_formed_witness :
  let u := mkUser "64b0c0ffee0000000000000a" "citizen" "Asha" in
  let c := sample [Vote.mk "64b0c0ffee0000000000000c" 3]
                  [Vote.mk "64b0c0ffee0000000000000a" 4] in
  exists c',
    snd (vote 10 u "upvote" (Some c)) = Some c' /\ votesWellFormed c'.
Proof.
  intros u c.
  apply (vote_keeps_votes_well_formed 10 u "upvote" c).
  unfold votesWellFormed; simpl. split; [|split].
  - apply NoDup_cons; [simpl; tauto | apply NoDup_nil].
  - apply NoDup_cons; [simpl; tauto | apply NoDup_nil].
  - intros w [<- | []] [H | []]. discriminate.
Defined.
End ComplaintMoreFacts.

Section ComplaintStatusFacts.
Import Complaint Mongoose ComplaintView ComplaintMore.

(** The document an accepted status update stores. *)
Lemma updateStatus_stored now user status0 comment0 c :
  statusValid status0 comment0 = true ->
  statusAuthorized user c = true ->
  updateStatus now user status0 comment0 (Some c) =
    (let c' :=
       set_resolutionDetails
         (if status0 =? "Resolved"
          then Some (Resolution.mk (option_map Validator.trim comment0)
                                   (_id user) now)
          else resolutionDetails c)
         (set_statusHistory
            (statusHistory c ++
             StatusEntry.mk status0 (Some (_id user)) now
                            (option_map Validator.trim comment0) ::
             if status0 =? status c then []
             else [StatusEntry.mk status0 None now None])
            (set_status status0 c)) in
     (Ok c', Some c')).
Proof.
  intros Hv Ha. unfold updateStatus. unfold statusValid in Hv. rewrite Hv.
  cbn [negb]. cbv zeta.
  replace (negb (role user =? "admin") && _) with false.
  2:{ unfold statusAuthorized in Ha. cbn [fields hydrate].
      destruct (role user =? "admin"); [reflexivity|]. cbn in Ha |- *.
      destruct (assignedTo c); [now rewrite Ha | discriminate]. }
  unfold assign, hydrate. cbn [isNew fields modifiedPaths orb].
  destruct (status0 =? status c) eqn:Es; cbn [negb].
  - apply String.eqb_eq in Es.
    destruct (status0 =? "Resolved"); destruct c; cbn in *; subst; reflexivity.
  - destruct (status0 =? "Resolved"); destruct c; cbn;
      rewrite <- app_assoc; reflexivity.
Qed.

Lemma updateStatus_invalid now user status0 comment0 found :
  statusValid status0 comment0 = false ->
  updateStatus now user status0 comment0 found =
    (Err 400 "Validation failed", found).
Proof.
  intros Hv. unfold updateStatus. unfold statusValid in Hv. now rewrite Hv.
Qed.

Lemma updateStatus_unauthorized now user status0 comment0 c :
  statusValid status0 comment0 = true ->
  statusAuthorized user c = false ->
  updateStatus now user status0 comment0 (Some c) =
    (Err 403 "Not authorized to update this complaint", Some c).
Proof.
  intros Hv Ha. unfold updateStatus. unfold statusValid in Hv. rewrite Hv.
  cbn [negb]. cbv zeta.
  replace (negb (role user =? "admin") && _) with true; [reflexivity|].
  unfold statusAuthorized in Ha. cbn [fields hydrate].
  apply orb_false_iff in Ha as [-> Ha]. cbn.
  destruct (assignedTo c); [now rewrite Ha | reflexivity].
Qed.

(** X3. Outcome of a status update.  A body that fails validation is
    answered 400 even when the complaint does not exist; otherwise a missing
    complaint is answered 404, a user who is neither admin nor the assignee
    403, and in all three cases nothing is stored; an admin or the assignee
    is answered 200 with the stored complaint, whose status is the
    requested one. *)
Theorem updateStatus_outcome now user status0 comment0 c :
  updateStatus now user status0 comment0 None =
    (if statusValid status0 comment0
     then Err 404 "Complaint not found"
     else Err 400 "Validation failed", None) /\
  (if statusValid status0 comment0 && statusAuthorized user c
   then exists c',
          updateStatus now user status0 comment0 (Some c) = (Ok c', Some c') /\
          status c' = status0
   else updateStatus now user status0 comment0 (Some c) =
          (if statusValid status0 comment0
           then Err 403 "Not authorized to update this complaint"
           else Err 400 "Validation failed", Some c)).
Proof.
  split.
  - destruct (statusValid status0 comment0) eqn:Hv.
    + unfold updateStatus. unfold statusValid in Hv. now rewrite Hv.
    + now apply updateStatus_invalid.
  - destruct (statusValid status0 comment0) eqn:Hv; cbn [andb].
    + destruct (statusAuthorized user c) eqn:Ha.
      * rewrite updateStatus_stored by assumption. cbv zeta.
        eexists. split; reflexivity.
      * now apply updateStatus_unauthorized.
    + now apply updateStatus_invalid.
Qed.

(** X4. Effect of an accepted status update: the status history grows by
    the handler's entry and, when the status differs from the stored one,
    by the hook's entry, in this order; the resolution details are replaced
    by [{description: comment, resolvedBy, resolvedAt}] when the new status
    is 'Resolved' and are kept as they were otherwise, also when a resolved
    complaint is moved to another status. *)
Theorem updateStatus_effect now user status0 comment0 c :
  statusValid status0 comment0 = true ->
  statusAuthorized user c = true ->
  exists c',
    snd (updateStatus now user status0 comment0 (Some c)) = Some c' /\
    status c' = status0 /\
    statusHistory c' =
      (statusHistory c ++
       StatusEntry.mk status0 (Some (_id user)) now
                      (option_map Validator.trim comment0) ::
       if status0 =? status c then []
       else [StatusEntry.mk status0 None now None])%list /\
    resolutionDetails c' =
      (if status0 =? "Resolved"
       then Some (Resolution.mk (option_map Validator.trim comment0)
                                (_id user) now)
       else resolutionDetails c).
Proof.
  intros Hv Ha. rewrite updateStatus_stored by assumption. cbv zeta.
  eexists. split; [reflexivity|]. repeat split.
Qed.

Lemma updateStatus_effect_witness :
  let officer := mkUser "64b0c0ffee0000000000000e" "user" "Dev" in
  let c := Complaint.mk "Pothole" "Deep pothole on main road" "Roads"
             "Resolved" "High" "64b0c0ffee0000000000000b"
             (Some "64b0c0ffee0000000000000e") [] [] []
             [StatusEntry.mk "Resolved" (Some "64b0c0ffee0000000000000e") 50
                             (Some "patched")]
             (Some (Resolution.mk (Some "patched") "64b0c0ffee0000000000000e" 50)) in
  exists c',
    snd (updateStatus 90 officer "In Progress" (Some " reopened ") (Some c)) = Some c' /\
    status c' = "In Progress" /\
    statusHistory c' =
      [StatusEntry.mk "Resolved" (Some "64b0c0ffee0000000000000e") 50 (Some "patched");
       StatusEntry.mk "In Progress" (Some "64b0c0ffee0000000000000e") 90 (Some "reopened");
       StatusEntry.mk "In Progress" None 90 None] /\
    resolutionDetails c' =
      Some (Resolution.mk (Some "patched") "64b0c0ffee0000000000000e" 50).
Proof.
  intros officer c.
  apply (updateStatus_effect 90 officer "In Progress" (Some " reopened ") c).
  - reflexivity.
  - reflexivity.
Defined.

(** X5. Frame of the status handler: whatever the request and its answer,
    the stored complaint has the title, description, category, priority,
    submitter, assignee, votes and comment list it had. *)
Theorem updateStatus_frame now user status0 comment0 c :
  exists c',
    snd (updateStatus now user status0 comment0 (Some c)) = Some c' /\
    title c' = title c /\ description c' = description c /\
    category c' = category c /\ priority c' = priority c /\
    submittedBy c' = submittedBy c /\ assignedTo c' = assignedTo c /\
    upvotes c' = upvotes c /\ downvotes c' = downvotes c /\
    comments c' = comments c.
Proof.
  destruct (statusValid status0 comment0) eqn:Hv.
  - destruct (statusAuthorized user c) eqn:Ha.
    + rewrite updateStatus_stored by assumption. cbv zeta.
      eexists. split; [reflexivity|]. repeat split.
    + rewrite updateStatus_unauthorized by assumption.
      exists c. repeat split.
  - rewrite updateStatus_invalid by assumption. exists c. repeat split.
Qed.

Lemma handle_history c r :
  exists c' added,
    handle (Some c) r = Some c' /\
    statusHistory c' = (statusHistory c ++ added)%list /\
    (List.length added <= 2)%nat.
Proof.
  destruct r as [now user voteType | now user status0 comment0]; cbn [handle].
  - destruct (validVoteType voteType) eqn:Hv.
    + destruct (vote_stored now user voteType c Hv) as (c' & Hr & _ & _ & Hf).
      exists c', []. rewrite Hr. split; [reflexivity|].
      rewrite app_nil_r. split; [|simpl; lia]. now rewrite <- Hf.
    + rewrite vote_rejected by exact Hv. exists c, [].
      rewrite app_nil_r. repeat split. simpl; lia.
  - destruct (statusValid status0 comment0) eqn:Hv.
    + destruct (statusAuthorized user c) eqn:Ha.
      * rewrite updateStatus_stored by assumption. cbv zeta.
        eexists. eexists. split; [reflexivity|]. split; [reflexivity|].
        destruct (status0 =? status c); simpl; lia.
      * rewrite updateStatus_unauthorized by assumption.
        exists c, []. rewrite app_nil_r. repeat split. simpl; lia.
    + rewrite updateStatus_invalid by assumption.
      exists c, []. rewrite app_nil_r. repeat split. simpl; lia.
Qed.

(** X6. The status history is append-only: after any series of vote and
    status requests of any users on a complaint, accepted or not, the
    complaint is still stored, its former status history is a prefix of the
    new one, and at most two entries were added per request. *)
Theorem status_history_append_only requests c :
  exists c' added,
    run requests (Some c) = Some c' /\
    statusHistory c' = (statusHistory c ++ added)%list /\
    (List.length added <= 2 * List.length requests)%nat.
Proof.
  revert c. induction requests as [|r requests IH]; intros c.
  - exists c, []. rewrite app_nil_r. repeat split. simpl; lia.
  - destruct (handle_history c r) as (c1 & a1 & H1 & Hh1 & Hl1).
    destruct (IH c1) as (c' & a2 & H2 & Hh2 & Hl2).
    exists c', (a1 ++ a2)%list. unfold run in *. cbn [fold_left].
    rewrite H1. split; [exact H2|]. split.
    + now rewrite Hh2, Hh1, app_assoc.
    + rewrite length_app. cbn [List.length]. lia.
Qed.
End ComplaintStatusFacts.

Section ComplaintCountFacts.
Import Complaint Mongoose ComplaintView ComplaintMore.

(** X7. First vote of a user: when the user holds no vote on the
    complaint, an accepted upvote raises [voteCount] by one, an accepted
    downvote lowers it by one, and either raises [engagementScore] by
    one. *)
Theorem first_vote_counts now user voteType c :
  validVoteType voteType = true ->
  hasUserVoted c (_id user) = None ->
  exists c',
    snd (vote now user voteType (Some c)) = Some c' /\
    voteCount c' = Z.add (voteCount c) (if voteType =? "upvote" then 1%Z else (-1)%Z) /\
    engagementScore c' = S (engagementScore c).
Proof.
  intros Hv Hnone. apply hasUserVoted_none in Hnone as [Hup Hdn].
  destruct (vote_stored now user voteType c Hv) as (c' & Hr & Hu & Hd & Hf).
  exists c'. rewrite Hr. split; [reflexivity|].
  rewrite Hup in Hu. rewrite Hdn in Hd.
  rewrite others_none in Hu by exact Hup.
  rewrite others_none in Hd by exact Hdn.
  assert (Hc : comments c' = comments c) by now rewrite <- Hf.
  unfold voteCount, engagementScore. rewrite Hu, Hd, Hc, !length_app.
  destruct (validVoteType_cases _ Hv) as [-> | ->];
    change ("upvote" =? "upvote") with true;
    change ("downvote" =? "upvote") with false;
    change ("downvote" =? "downvote") with true;
    change ("upvote" =? "downvote") with false; cbn [andb negb List.length];
    split; lia.
Qed.

Lemma first_vote_counts_witness :
  let u := mkUser "64b0c0ffee0000000000000a" "citizen" "Asha" in
  let c := sample [Vote.mk "64b0c0ffee0000000000000c" 3] [] in
  exists c',
    snd (vote 10 u "downvote" (Some c)) = Some c' /\
    voteCount c' = Z.add (voteCount c) (-1)%Z /\
    engagementScore c' = S (engagementScore c).
Proof.
  intros u c.
  apply (first_vote_counts 10 u "downvote" c).
  - reflexivity.
  - reflexivity.
Defined.

Lemma find_allowed_in (p : string -> bool) a :
  find p allowed = Some a -> In a allowed.
Proof. intros H. now apply find_some in H. Qed.

(** X8. Category and priority of a new complaint, whatever
    [toLowerCase] does: the normalised category is always one of the eight
    schema categories; when the request's category passed the category
    validator, the two are equal after [toLowerCase]; when it did not, it
    was empty or the normalised category is 'Other'.  The priority is the
    body's when that is one of the four schema priorities and 'Medium'
    otherwise, so it is always one of the four. *)
Theorem category_priority_in_enum lower category0 priority0 :
  In (normalizedCategory lower category0) allowed /\
  (if categoryAccepted lower category0
   then lower (normalizedCategory lower category0) = lower category0
   else category0 = "" \/ normalizedCategory lower category0 = "Other") /\
  chosenPriority priority0 =
    match priority0 with
    | Some p => if existsb (String.eqb p) priorities then p else "Medium"
    | None => "Medium"
    end /\
  In (chosenPriority priority0) priorities.
Proof.
  split; [|split; [|split]].
  - unfold normalizedCategory.
    destruct (find _ allowed) as [a|] eqn:E.
    + now apply find_allowed_in in E.
    + simpl. tauto.
  - unfold categoryAccepted, normalizedCategory. cbv zeta.
    destruct (category0 =? "") eqn:E0.
    { left. now apply String.eqb_eq. }
    destruct (find _ allowed) as [a|] eqn:E.
    + apply find_some in E as [Hin E].
      replace (existsb _ allowed) with true.
      * now apply String.eqb_eq.
      * symmetry. apply existsb_exists. now exists a.
    + destruct (existsb _ allowed) eqn:Ex; [|now right].
      apply existsb_exists in Ex as (a & Hin & Ha).
      now rewrite (find_none _ _ E a Hin) in Ha.
  - unfold chosenPriority. destruct priority0 as [p|]; [|reflexivity].
    destruct (p =? "") eqn:E0; cbn [negb andb]; [|reflexivity].
    apply String.eqb_eq in E0. now subst.
  - unfold chosenPriority. destruct priority0 as [p|]; [|simpl; tauto].
    destruct (negb (p =? "")); cbn [andb]; [|simpl; tauto].
    destruct (existsb (String.eqb p) priorities) eqn:Ex; [|simpl; tauto].
    apply existsb_exists in Ex as (q & Hin & Hq).
    apply String.eqb_eq in Hq. now subst.
Qed.
End ComplaintCountFacts.

Section CommentMoreFacts.
Import Comment Mongoose CommentView CommentMore.

(** The document an accepted edit stores. *)
Lemma update_stored now user content0 c :
  Validator.isLength 1 500 (Validator.trim content0) = true ->
  toString (author c) = toString (_id user) ->
  (now <= createdAt c + editWindow)%Z ->
  update now user content0 (Some c) =
    (let c' :=
       set_editHistory
         (editHistory c ++
          Edit.mk (content c) now ::
          if Validator.trim content0 =? content c then []
          else [Edit.mk (Validator.trim content0) now])
         (set_isEdited true (set_content (Validator.trim content0) c)) in
     (Ok c', Some c')).
Proof.
  intros Hv Ha Hw. unfold update. rewrite Hv. cbn [negb]. cbv zeta.
  cbn [fields hydrate]. rewrite Ha, String.eqb_refl. cbn [negb].
  rewrite within_window by exact Hw. cbn [negb].
  unfold assign_content, assign, hydrate. cbn [isNew fields modifiedPaths orb].
  rewrite trim_idem.
  destruct (Validator.trim content0 =? content c) eqn:Ec; cbn [negb].
  - apply String.eqb_eq in Ec. destruct c; cbn in *; subst; reflexivity.
  - destruct c; cbn; rewrite <- app_assoc; reflexivity.
Qed.

Lemma update_invalid now user content0 found :
  Validator.isLength 1 500 (Validator.trim content0) = false ->
  update now user content0 found = (Err 400 "Validation failed", found).
Proof. intros Hv. unfold update. now rewrite Hv. Qed.

Lemma update_not_author now user content0 c :
  Validator.isLength 1 500 (Validator.trim content0) = true ->
  toString (author c) <> toString (_id user) ->
  update now user content0 (Some c) =
    (Err 403 "Not authorized to edit this comment", Some c).
Proof.
  intros Hv Ha. unfold update. rewrite Hv. cbn [negb]. cbv zeta.
  cbn [fields hydrate]. apply String.eqb_neq in Ha. now rewrite Ha.
Qed.

Lemma update_too_old now user content0 c :
  Validator.isLength 1 500 (Validator.trim content0) = true ->
  toString (author c) = toString (_id user) ->
  (createdAt c + editWindow < now)%Z ->
  update now user content0 (Some c) =
    (Err 403 "Comment is too old to edit", Some c).
Proof.
  intros Hv Ha Hold. unfold update. rewrite Hv. cbn [negb]. cbv zeta.
  cbn [fields hydrate]. rewrite Ha, String.eqb_refl. cbn [negb].
  now rewrite after_window.
Qed.

(** The document a permitted delete stores. *)
Lemma softDelete_stored now user c :
  mayDelete user c = true ->
  softDelete now user (Some c) =
    (Ok "Comment deleted successfully",
     Some (if content c =? placeholder
           then set_deletedAt (Some now) (set_isDeleted true c)
           else set_isEdited true
                  (set_editHistory
                     (editHistory c ++ [Edit.mk placeholder now])
                     (set_content placeholder
                        (set_deletedAt (Some now) (set_isDeleted true c)))))).
Proof.
  intros Hm. unfold softDelete. cbv zeta. cbn [fields hydrate].
  replace (negb _ && negb _) with false.
  2:{ unfold mayDelete in Hm. rewrite <- negb_orb. now rewrite Hm. }
  unfold assign_content, assign, hydrate, mutate.
  cbn [isNew fields modifiedPaths orb]. rewrite trim_placeholder.
  replace (placeholder =? content (set_deletedAt (Some now) (set_isDeleted true c)))
    with (content c =? placeholder) by (cbn; apply String.eqb_sym).
  destruct (content c =? placeholder); reflexivity.
Qed.

Lemma softDelete_denied now user c :
  mayDelete user c = false ->
  softDelete now user (Some c) =
    (Err 403 "Not authorized to delete this comment", Some c).
Proof.
  intros Hm. unfold softDelete. cbv zeta. cbn [fields hydrate].
  replace (negb _ && negb _) with true; [reflexivity|].
  unfold mayDelete in Hm. rewrite <- negb_orb. now rewrite Hm.
Qed.

(** X9. The edit window is closed at its upper end: for the author and an
    acceptable body, the edit is answered 200 when at most 24 hours (86 400
    000 ms) have passed since creation, the last millisecond included, and
    403 from the next millisecond on. *)
Theorem update_window_boundary now user content0 c :
  Validator.isLength 1 500 (Validator.trim content0) = true ->
  toString (author c) = toString (_id user) ->
  statusCode (fst (update now user content0 (Some c))) =
    (if (now - createdAt c <=? 86400000)%Z then 200%nat else 403%nat).
Proof.
  intros Hv Ha. destruct (now - createdAt c <=? 86400000)%Z eqn:E.
  - apply Z.leb_le in E. rewrite update_stored; [reflexivity | | |]; try assumption.
    unfold editWindow. lia.
  - apply Z.leb_gt in E. rewrite update_too_old; [reflexivity | | |];
      try assumption. unfold editWindow. lia.
Qed.

Lemma update_window_boundary_witness :
  let u := mkUser "64b0c0ffee0000000000000a" "citizen" "Asha" in
  let c := sample "Streetlight is broken" [] in
  statusCode (fst (update 86401000 u "Streetlight is fixed" (Some c))) = 200%nat.
Proof.
  intros u c.
  apply (update_window_boundary 86401000 u "Streetlight is fixed" c).
  - reflexivity.
  - reflexivity.
Defined.
End CommentMoreFacts.

Section CommentHandlerFacts.
Import Comment Mongoose CommentView CommentMore.

(** X10. Effect of an accepted edit: the stored content is the trimmed
    body, the edited flag is set, and the edit history grows by an entry
    with the previous content followed, when the content changed, by an
    entry with the new content; an edit to the same content adds the first
    entry only. *)
Theorem update_effect now user content0 c :
  Validator.isLength 1 500 (Validator.trim content0) = true ->
  toString (author c) = toString (_id user) ->
  (now <= createdAt c + editWindow)%Z ->
  exists c',
    update now user content0 (Some c) = (Ok c', Some c') /\
    content c' = Validator.trim content0 /\
    isEdited c' = true /\
    editHistory c' =
      (editHistory c ++
       Edit.mk (content c) now ::
       if Validator.trim content0 =? content c then []
       else [Edit.mk (Validator.trim content0) now])%list.
Proof.
  intros Hv Ha Hw. rewrite update_stored by assumption. cbv zeta.
  eexists. split; [reflexivity|]. repeat split.
Qed.

Lemma update_effect_witness :
  let u := mkUser "64b0c0ffee0000000000000a" "citizen" "Asha" in
  let c := sample "Streetlight is broken" [] in
  exists c',
    update 2000 u "  Streetlight is broken " (Some c) = (Ok c', Some c') /\
    content c' = "Streetlight is broken" /\
    isEdited c' = true /\
    editHistory c' = [Edit.mk "Streetlight is broken" 2000].
Proof.
  intros u c.
  apply (update_effect 2000 u "  Streetlight is broken " c).
  - reflexivity.
  - reflexivity.
  - vm_compute. discriminate.
Defined.

(** X11. Editing is the author's alone, deleting is not: an admin who is
    not the author of a comment is answered 403 on an edit request with an
    acceptable body, whatever the comment's age, and 200 on a delete
    request, which stores the comment as deleted. *)
Theorem admin_deletes_but_cannot_edit now user content0 c :
  role user = "admin" ->
  toString (author c) <> toString (_id user) ->
  Validator.isLength 1 500 (Validator.trim content0) = true ->
  update now user content0 (Some c) =
    (Err 403 "Not authorized to edit this comment", Some c) /\
  exists c',
    softDelete now user (Some c) = (Ok "Comment deleted successfully", Some c') /\
    isDeleted c' = true /\ content c' = placeholder.
Proof.
  intros Hr Ha Hv. split; [now apply update_not_author|].
  assert (Hm : mayDelete user c = true).
  { unfold mayDelete. rewrite Hr. apply orb_true_r. }
  rewrite softDelete_stored by exact Hm. eexists. split; [reflexivity|].
  destruct (content c =? placeholder) eqn:E; [|now split].
  apply String.eqb_eq in E. now split.
Qed.

Lemma admin_deletes_but_cannot_edit_witness :
  let admin := mkUser "64b0c0ffee000000000000ad" "admin" "Meera" in
  let c := sample "Streetlight is broken" [] in
  update 2000 admin "Streetlight is fixed" (Some c) =
    (Err 403 "Not authorized to edit this comment", Some c) /\
  exists c',
    softDelete 2000 admin (Some c) = (Ok "Comment deleted successfully", Some c') /\
    isDeleted c' = true /\ content c' = placeholder.
Proof.
  intros admin c.
  apply (admin_deletes_but_cannot_edit 2000 admin "Streetlight is fixed" c).
  - reflexivity.
  - discriminate.
  - reflexivity.
Defined.

(** X12. Deleting a deleted comment: the delete handler does not look at
    the deleted flag; a second permitted delete request is answered 200
    again and changes nothing but the deletion time (no further entry in
    the edit history). *)
Theorem softDelete_twice now1 now2 user1 user2 c :
  mayDelete user1 c = true ->
  mayDelete user2 c = true ->
  exists c1,
    softDelete now1 user1 (Some c) = (Ok "Comment deleted successfully", Some c1) /\
    softDelete now2 user2 (Some c1) =
      (Ok "Comment deleted successfully", Some (set_deletedAt (Some now2) c1)).
Proof.
  intros H1 H2. rewrite softDelete_stored by exact H1.
  eexists. split; [reflexivity|].
  destruct (content c =? placeholder) eqn:E.
  - rewrite softDelete_stored by exact H2. cbn [content set_deletedAt set_isDeleted].
    rewrite E. reflexivity.
  - rewrite softDelete_stored by exact H2. reflexivity.
Qed.

Lemma softDelete_twice_witness :
  let u := mkUser "64b0c0ffee0000000000000a" "citizen" "Asha" in
  let admin := mkUser "64b0c0ffee000000000000ad" "admin" "Meera" in
  let c := sample "Streetlight is broken" [] in
  exists c1,
    softDelete 3000 u (Some c) = (Ok "Comment deleted successfully", Some c1) /\
    softDelete 4000 admin (Some c1) =
      (Ok "Comment deleted successfully", Some (set_deletedAt (Some 4000%Z) c1)).
Proof.
  intros u admin c.
  apply (softDelete_twice 3000 4000 u admin c).
  - reflexivity.
  - reflexivity.
Defined.
End CommentHandlerFacts.

Section CommentRunFacts.
Import Comment Mongoose CommentView CommentMore.

Lemma keepsComment_refl c : keepsComment c c [].
Proof.
  unfold keepsComment. rewrite app_nil_r.
  repeat split; [destruct (isDeleted c) | destruct (isEdited c)]; reflexivity.
Qed.

Lemma keepsComment_trans c1 c2 c3 a1 a2 :
  keepsComment c1 c2 a1 -> keepsComment c2 c3 a2 ->
  keepsComment c1 c3 (a1 ++ a2).
Proof.
  intros (Hi1 & Hh1 & Hd1 & He1) (Hi2 & Hh2 & Hd2 & He2).
  unfold keepsComment. repeat split.
  - congruence.
  - now rewrite Hh2, Hh1, app_assoc.
  - destruct (isDeleted c1), (isDeleted c2), (isDeleted c3); auto.
  - destruct (isEdited c1), (isEdited c2), (isEdited c3); auto.
Qed.

Lemma handle_keeps c r :
  exists c' added, handle (Some c) r = Some c' /\ keepsComment c c' added.
Proof.
  destruct r as [now user content0 | now user | now user]; cbn [handle].
  - destruct (Validator.isLength 1 500 (Validator.trim content0)) eqn:Hv.
    2:{ rewrite update_invalid by exact Hv. exists c, [].
        split; [reflexivity | apply keepsComment_refl]. }
    destruct (toString (author c) =? toString (_id user)) eqn:Ha.
    2:{ apply String.eqb_neq in Ha. rewrite update_not_author by assumption.
        exists c, []. split; [reflexivity | apply keepsComment_refl]. }
    apply String.eqb_eq in Ha.
    destruct (Z_le_gt_dec now (createdAt c + editWindow)) as [Hw | Hw].
    + rewrite update_stored by assumption. cbv zeta.
      eexists. eexists. split; [reflexivity|].
      unfold keepsComment. cbn. repeat split.
      * destruct (isDeleted c); reflexivity.
      * destruct (isEdited c); reflexivity.
    + rewrite update_too_old by (assumption || lia).
      exists c, []. split; [reflexivity | apply keepsComment_refl].
  - destruct (mayDelete user c) eqn:Hm.
    + rewrite softDelete_stored by exact Hm.
      destruct (content c =? placeholder).
      * eexists. exists []. split; [reflexivity|].
        unfold keepsComment. cbn. rewrite app_nil_r. repeat split.
        -- destruct (isDeleted c); reflexivity.
        -- destruct (isEdited c); reflexivity.
      * eexists. eexists. split; [reflexivity|].
        unfold keepsComment. cbn. repeat split.
        -- destruct (isDeleted c); reflexivity.
        -- destruct (isEdited c); reflexivity.
    + rewrite softDelete_denied by exact Hm.
      exists c, []. split; [reflexivity | apply keepsComment_refl].
  - destruct (like_stored now user c) as (c' & Hr & _ & Hf).
    exists c', []. rewrite Hr. split; [reflexivity|].
    assert (Hk : keepsComment (set_likes (likes c) c') c' []).
    { unfold keepsComment. cbn. rewrite app_nil_r. repeat split.
      - destruct (isDeleted c'); reflexivity.
      - destruct (isEdited c'); reflexivity. }
    now rewrite Hf in Hk.
Qed.

(** X13. What no series of edit, delete and like requests undoes: after
    any such series by any users, accepted or not, the comment is still
    stored with the author, parents, replies and creation time it had, its
    former edit history is a prefix of the new one, a deleted comment is
    still deleted and an edited one still flagged as edited. *)
Theorem comment_requests_keep requests c :
  exists c' added,
    run requests (Some c) = Some c' /\
    identity c' = identity c /\
    editHistory c' = (editHistory c ++ added)%list /\
    implb (isDeleted c) (isDeleted c') = true /\
    implb (isEdited c) (isEdited c') = true.
Proof.
  revert c. induction requests as [|r requests IH]; intros c.
  - exists c, []. split; [reflexivity | apply keepsComment_refl].
  - destruct (handle_keeps c r) as (c1 & a1 & H1 & Hk1).
    destruct (IH c1) as (c' & a2 & H2 & Hk2).
    exists c', (a1 ++ a2)%list. unfold run in *. cbn [fold_left].
    rewrite H1. split; [exact H2|].
    exact (keepsComment_trans c c1 c' a1 a2 Hk1 Hk2).
Qed.
End CommentRunFacts.

Section LikeMoreFacts.
Import Comment Mongoose CommentView CommentMore.

Lemma likedBy_other w userId like :
  toString w <> toString userId ->
  likedBy userId like = true -> likedBy w like = false.
Proof.
  unfold likedBy. intros Hne H. apply String.eqb_eq in H.
  apply String.eqb_neq. congruence.
Qed.

Lemma some_likedBy_filter w userId l :
  toString w <> toString userId ->
  Js.some (likedBy w) (filter (fun like => negb (likedBy userId like)) l) =
  Js.some (likedBy w) l.
Proof.
  intros Hne. induction l as [|x l IH]; simpl; [reflexivity|].
  destruct (likedBy userId x) eqn:E; simpl.
  - rewrite (likedBy_other w userId x Hne E). exact IH.
  - now rewrite IH.
Qed.

(** X14. A like request is always answered 200 with the state it stored:
    [likeCount] is the length of the stored like array and [hasLiked] tells
    whether the user is in it; the likes of every other user are the ones
    that were there. *)
Theorem like_reply_and_frame now user c w :
  toString w <> toString (_id user) ->
  exists c' r,
    like now user (Some c) = (Ok r, Some c') /\
    likeCount r = List.length (likes c') /\
    hasLiked r = hasUserLiked c' (_id user) /\
    hasUserLiked c' w = hasUserLiked c w /\
    filter (fun like => negb (likedBy (_id user) like)) (likes c') =
    filter (fun like => negb (likedBy (_id user) like)) (likes c).
Proof.
  intros Hne. destruct (like_stored now user c) as (c' & Hr & Hl & _).
  pose proof (hasUserLiked_flips now user c c') as Hf.
  rewrite Hr in Hf. specialize (Hf eq_refl).
  exists c'. eexists. split; [exact Hr|]. cbn [likeCount hasLiked].
  split; [reflexivity|]. split; [now rewrite Hf|].
  unfold hasUserLiked at 1. fold (likedBy w). rewrite Hl.
  destruct (hasUserLiked c (_id user)) eqn:E.
  - split; [now apply some_likedBy_filter|].
    apply filter_negb_none with (p := likedBy (_id user)), existsb_filter_negb.
  - split.
    + unfold Js.some. rewrite existsb_app. cbn [existsb].
      replace (likedBy w (Like.mk (_id user) now)) with false.
      * now rewrite !orb_false_r.
      * symmetry. apply (likedBy_other w (_id user)); [exact Hne|].
        apply likedBy_self.
    + rewrite filter_app. cbn [filter]. rewrite likedBy_self. cbn [negb].
      apply app_nil_r.
Qed.

Lemma like_reply_and_frame_witness :
  let u := mkUser "64b0c0ffee0000000000000a" "citizen" "Asha" in
  let w : ObjectId := "64b0c0ffee0000000000000c" in
  let c := Comment.mk "Streetlight is broken" "64b0c0ffee0000000000000b"
             (Some "64b0c0ffee00000000000001") None None []
             [Like.mk "64b0c0ffee0000000000000a" 1200; Like.mk w 1300]
             false [] false None 1000 in
  exists c' r,
    like 2000 u (Some c) = (Ok r, Some c') /\
    likeCount r = List.length (likes c') /\
    hasLiked r = hasUserLiked c' (_id u) /\
    hasUserLiked c' w = hasUserLiked c w /\
    filter (fun like => negb (likedBy (_id u) like)) (likes c') =
    filter (fun like => negb (likedBy (_id u) like)) (likes c).
Proof.
  intros u w c.
  apply (like_reply_and_frame 2000 u c w).
  discriminate.
Defined.

Lemma length_unlike userId l :
  NoDup (map Like.user l) ->
  existsb (likedBy userId) l = true ->
  S (List.length (filter (fun like => negb (likedBy userId like)) l)) =
  List.length l.
Proof.
  induction l as [|x l IH]; simpl; [discriminate|].
  intros Hnd Hex. inversion Hnd as [|? ? Hnotin Hnd']; subst.
  destruct (likedBy userId x) eqn:Ex; simpl.
  - f_equal. f_equal. apply filter_negb_none.
    destruct (existsb (likedBy userId) l) eqn:El; [|reflexivity].
    exfalso. apply Hnotin. apply existsb_exists in El as (y & Hy & Ey).
    unfold likedBy, toString in Ex, Ey.
    apply String.eqb_eq in Ex, Ey. rewrite Ex, <- Ey. now apply in_map.
  - f_equal. now apply IH.
Qed.

(** X15. One like more or one less: when no user is twice in the like
    array, a like request leaves it so and answers with a count one below
    the former count if the user had liked the comment, one above it
    otherwise. *)
Theorem like_counts_by_one now user c :
  NoDup (likeUsers c) ->
  exists c' r,
    like now user (Some c) = (Ok r, Some c') /\
    NoDup (likeUsers c') /\
    (if hasUserLiked c (_id user)
     then S (likeCount r) = List.length (likes c)
     else likeCount r = S (List.length (likes c))).
Proof.
  intros Hnd. destruct (like_stored now user c) as (c' & Hr & Hl & _).
  exists c'. eexists. split; [exact Hr|]. cbn [likeCount].
  split.
  - apply (like_NoDup now user c c' Hnd). now rewrite Hr.
  - rewrite Hl. destruct (hasUserLiked c (_id user)) eqn:E.
    + now apply length_unlike.
    + rewrite length_app. simpl. lia.
Qed.

Lemma like_counts_by_one_witness :
  let u := mkUser "64b0c0ffee0000000000000a" "citizen" "Asha" in
  let c := Comment.mk "Streetlight is broken" "64b0c0ffee0000000000000b"
             (Some "64b0c0ffee00000000000001") None None []
             [Like.mk "64b0c0ffee0000000000000a" 1200;
              Like.mk "64b0c0ffee0000000000000c" 1300]
             false [] false None 1000 in
  exists c' r,
    like 2000 u (Some c) = (Ok r, Some c') /\
    NoDup (likeUsers c') /\
    S (likeCount r) = 2%nat.
Proof.
  intros u c.
  apply (like_counts_by_one 2000 u c).
  apply NoDup_cons; [simpl; intuition discriminate|].
  apply NoDup_cons; [simpl; tauto | apply NoDup_nil].
Defined.
End LikeMoreFacts.

Section CommentCreateFacts.
Import Comment Mongoose CommentView CommentMore.

Lemma resolves_facts isHexadecimal castObjectId exists_ o r :
  resolves isHexadecimal castObjectId exists_ o r ->
  optionalMongoId isHexadecimal o = true /\
  reference castObjectId o = Some r /\
  truthy o = (match r with Some _ => true | None => false end) /\
  forall B message (rest : Reply B * option t),
    lookup castObjectId exists_ o message rest = rest.
Proof.
  unfold resolves, optionalMongoId, isMongoId, lookup, reference, truthy.
  destruct o as [s|], r as [i|]; try tauto.
  intros (Hh & Hl & Hc & He). rewrite Hh, Hl, Hc, He. cbn.
  destruct s; [discriminate|]. auto.
Qed.

(** X16. Creating a comment: a body with acceptable content whose
    references each are absent or pass [isMongoId], are cast by Mongoose and
    are found in their collection, and that names a complaint or a
    community post (or both), is answered 201 with the re-read comment and
    stores a comment with the trimmed content, the requester as author,
    every named reference as cast (a complaint and a post together are both
    kept), no like, no reply, no edit-history entry, neither edited nor
    deleted. *)
Theorem comment_create_effect {B} (populated : t -> B) isHexadecimal
    castObjectId complaintExists postExists commentExists now user content0
    o1 o2 o3 r1 r2 r3 :
  Validator.isLength 1 500 (Validator.trim content0) = true ->
  resolves isHexadecimal castObjectId complaintExists o1 r1 ->
  resolves isHexadecimal castObjectId postExists o2 r2 ->
  resolves isHexadecimal castObjectId commentExists o3 r3 ->
  r1 <> None \/ r2 <> None ->
  create populated isHexadecimal castObjectId complaintExists postExists
         commentExists now user content0 o1 o2 o3 =
    (let c := Comment.mk (Validator.trim content0) (_id user) r1 r2 r3
                [] [] false [] false None now in
     (Created (populated c), Some c)).
Proof.
  intros Hv H1 H2 H3 Hn. unfold create. cbv zeta.
  apply resolves_facts in H1 as (Hm1 & Hr1 & Ht1 & Hl1).
  apply resolves_facts in H2 as (Hm2 & Hr2 & Ht2 & Hl2).
  apply resolves_facts in H3 as (Hm3 & Hr3 & _ & Hl3).
  rewrite Hv, Hm1, Hm2, Hm3. cbn [andb negb]. rewrite Ht1, Ht2.
  replace (negb _ && negb _) with false
    by (destruct r1, r2; try reflexivity; destruct Hn; congruence).
  rewrite Hl1, Hl2, Hl3, Hr1, Hr2, Hr3, trim_idem. reflexivity.
Qed.

Lemma comment_create_effect_witness :
  let u := mkUser "64b0c0ffee0000000000000a" "citizen" "Asha" in
  create (fun comment => comment) (fun _ => true) Some
         (String.eqb "64b0c0ffee00000000000001")
         (String.eqb "64b0c0ffee00000000000002") (fun _ => false)
         1000 u " Streetlight is broken " (Some "64b0c0ffee00000000000001")
         (Some "64b0c0ffee00000000000002") None =
    (let c := Comment.mk "Streetlight is broken" "64b0c0ffee0000000000000a"
                (Some "64b0c0ffee00000000000001")
                (Some "64b0c0ffee00000000000002") None
                [] [] false [] false None 1000 in
     (Created c, Some c)).
Proof.
  intros u.
  apply (comment_create_effect (fun comment => comment) (fun _ => true) Some
           (String.eqb "64b0c0ffee00000000000001")
           (String.eqb "64b0c0ffee00000000000002") (fun _ => false)
           1000 u " Streetlight is broken "
           (Some "64b0c0ffee00000000000001") (Some "64b0c0ffee00000000000002")
           None (Some "64b0c0ffee00000000000001")
           (Some "64b0c0ffee00000000000002") None).
  - reflexivity.
  - repeat split; reflexivity.
  - repeat split; reflexivity.
  - exact I.
  - left. discriminate.
Defined.
End CommentCreateFacts.

Section FilterCount.
Context {A : Type} (key : A -> string).

Lemma length_filter_key (u : string) (l : list A) :
  NoDup (map key l) ->
  existsb (fun x => key x =? u) l = true ->
  S (List.length (filter (fun x => negb (key x =? u)) l)) = List.length l.
Proof.
  induction l as [|x l IH]; simpl; [discriminate|].
  intros Hnd Hex. inversion Hnd as [|? ? Hnotin Hnd']; subst.
  destruct (key x =? u) eqn:Ex; simpl.
  - f_equal. f_equal. apply filter_negb_none with (p := fun y => key y =? u).
    destruct (existsb (fun y => key y =? u) l) eqn:El; [|reflexivity].
    exfalso. apply Hnotin. apply existsb_exists in El as (y & Hy & Ey).
    apply String.eqb_eq in Ex, Ey. rewrite Ex, <- Ey. now apply in_map.
  - f_equal. now apply IH.
Qed.
End FilterCount.

Section CommunityMoreFacts.
Import Community CommunityMore.

Lemma join_member now user c :
  isMember c (_id user) = true ->
  join now user (Some c) = (Err 400 "Already a member of this community", Some c).
Proof. intros H. unfold join. now rewrite H. Qed.

Lemma join_new now user c :
  isMember c (_id user) = false ->
  join now user (Some c) =
    (Ok (S (memberCount c)),
     Some (set_members (members c ++ [Member.mk (_id user) now "member"]) c)).
Proof.
  intros H. unfold join, addMember. rewrite H. cbn [negb].
  unfold Js.push, memberCount. cbn [members set_members].
  rewrite length_app. simpl. now rewrite Nat.add_1_r.
Qed.

Lemma filter_members_push userId now role0 l :
  Js.some (fun member => toString (Member.user member) =? toString userId) l = false ->
  filter (fun member => negb (toString (Member.user member) =? toString userId))
         (l ++ [Member.mk userId now role0]) = l.
Proof.
  intros H. rewrite filter_app. cbn [filter Member.user].
  unfold toString at 3 4. rewrite String.eqb_refl. cbn [negb].
  rewrite app_nil_r.
  now apply filter_negb_none
    with (p := fun member => toString (Member.user member) =? toString userId).
Qed.

(** X17. Joining: a user who is not a member is answered 200 with the
    member count raised by one and is stored last in the member list with
    role 'member'; a join request of the same user that follows is answered
    400 'Already a member of this community' and changes nothing. *)
Theorem join_once now1 now2 user c :
  isMember c (_id user) = false ->
  exists c1,
    join now1 user (Some c) = (Ok (S (memberCount c)), Some c1) /\
    members c1 = (members c ++ [Member.mk (_id user) now1 "member"])%list /\
    join now2 user (Some c1) =
      (Err 400 "Already a member of this community", Some c1).
Proof.
  intros H. rewrite join_new by exact H. eexists. split; [reflexivity|].
  split; [reflexivity|]. apply join_member.
  unfold isMember, Js.some. cbn [members set_members].
  rewrite existsb_app. cbn [existsb Member.user].
  unfold toString. rewrite String.eqb_refl. apply orb_true_r.
Qed.

Lemma join_once_witness :
  let u := mkUser "64b0c0ffee0000000000000a" "citizen" "Asha" in
  let w := mkUser "64b0c0ffee0000000000000c" "citizen" "Ravi" in
  let c := Community.mk "Ward 12 Residents"
             "Neighbours of ward 12 reporting civic issues" "General"
             (_id u) [_id u] [Member.mk (_id u) 10 "admin"] [] false false in
  exists c1,
    join 20 w (Some c) = (Ok 2%nat, Some c1) /\
    members c1 = [Member.mk (_id u) 10 "admin"; Member.mk (_id w) 20 "member"] /\
    join 21 w (Some c1) =
      (Err 400 "Already a member of this community", Some c1).
Proof.
  intros u w c.
  apply (join_once 20 21 w c).
  reflexivity.
Defined.

(** X18. Join then leave is a round trip: for a user who is neither a
    member nor the creator, a join request followed by a leave request
    stores the community exactly as it was, and the leave is answered with
    the original member count. *)
Theorem join_leave_round_trip now user c :
  isMember c (_id user) = false ->
  toString (createdBy c) <> toString (_id user) ->
  leave user (snd (join now user (Some c))) = (Ok (memberCount c), Some c).
Proof.
  intros Hm Hc. rewrite join_new by exact Hm. cbn [snd]. unfold leave.
  replace (isMember _ (_id user)) with true.
  2:{ symmetry. unfold isMember, Js.some. cbn [members set_members].
      rewrite existsb_app. cbn [existsb Member.user].
      unfold toString. rewrite String.eqb_refl. apply orb_true_r. }
  cbn [negb createdBy set_members]. apply String.eqb_neq in Hc. rewrite Hc.
  unfold removeMember. cbn [members set_members].
  rewrite filter_members_push by exact Hm.
  unfold memberCount. destruct c; reflexivity.
Qed.

Lemma join_leave_round_trip_witness :
  let u := mkUser "64b0c0ffee0000000000000a" "citizen" "Asha" in
  let w := mkUser "64b0c0ffee0000000000000c" "citizen" "Ravi" in
  let c := Community.mk "Ward 12 Residents"
             "Neighbours of ward 12 reporting civic issues" "General"
             (_id u) [_id u] [Member.mk (_id u) 10 "admin"] [] false false in
  leave w (snd (join 20 w (Some c))) = (Ok 1%nat, Some c).
Proof.
  intros u w c.
  apply (join_leave_round_trip 20 w c).
  - reflexivity.
  - discriminate.
Defined.

(** X19. Leaving: in a community stored by the create, join, leave and
    post handlers, the leave request of a member other than the creator is
    answered 200 with the member count lowered by one; the user is no
    member afterwards and the creator still is. *)
Theorem leave_effect user c :
  reachable c ->
  isMember c (_id user) = true ->
  toString (createdBy c) <> toString (_id user) ->
  exists c',
    leave user (Some c) = (Ok (memberCount c'), Some c') /\
    S (memberCount c') = memberCount c /\
    isMember c' (_id user) = false /\
    isMember c' (createdBy c') = true.
Proof.
  intros Hr Hm Hc. destruct (reachable_invariant c Hr) as [_ Hnd].
  assert (Hreach : reachable (removeMember c (_id user))).
  { apply (reach_leave user c); [exact Hr|]. unfold leave. rewrite Hm.
    cbn [negb]. apply String.eqb_neq in Hc. now rewrite Hc. }
  exists (removeMember c (_id user)). split; [|split; [|split]].
  - unfold leave. rewrite Hm. cbn [negb]. apply String.eqb_neq in Hc.
    now rewrite Hc.
  - unfold memberCount, removeMember. cbn [members set_members].
    apply (length_filter_key Member.user (_id user) (members c) Hnd Hm).
  - unfold isMember, removeMember, Js.some. cbn [members set_members].
    apply existsb_filter_negb
      with (p := fun member => toString (Member.user member) =? toString (_id user)).
  - now apply reachable_invariant.
Qed.

Lemma leave_effect_witness :
  let u := mkUser "64b0c0ffee0000000000000a" "citizen" "Asha" in
  let w := mkUser "64b0c0ffee0000000000000c" "citizen" "Ravi" in
  let c := Community.mk "Ward 12 Residents"
             "Neighbours of ward 12 reporting civic issues" "General"
             (_id u) [_id u]
             [Member.mk (_id u) 10 "admin"; Member.mk (_id w) 20 "member"]
             [] false false in
  exists c',
    leave w (Some c) = (Ok (memberCount c'), Some c') /\
    S (memberCount c') = 2%nat /\
    isMember c' (_id w) = false /\
    isMember c' (createdBy c') = true.
Proof.
  intros u w c.
  apply (leave_effect w c).
  - apply (reach_join 20 w
             (Community.mk "Ward 12 Residents"
                "Neighbours of ward 12 reporting civic issues" "General"
                (_id u) [_id u] [Member.mk (_id u) 10 "admin"] [] false false)).
    + apply (reach_create 10 u "Ward 12 Residents"
               "Neighbours of ward 12 reporting civic issues" "General"
               None None true).
      reflexivity.
    + reflexivity.
  - reflexivity.
  - discriminate.
Defined.
End CommunityMoreFacts.

Section CommunityInvariantFacts.
Import Community CommunityMore.

(** X20. Shape of the stored communities: in a community stored by the
    create, join, leave and post handlers, the creator is the first member, with
    role 'admin'; every later member is another user with role 'member';
    the creator is the only moderator, so [isModerator] holds of the creator
    alone. *)
Theorem creator_heads_members c :
  reachable c ->
  (exists joinedAt rest,
     members c = Member.mk (createdBy c) joinedAt "admin" :: rest /\
     Forall (fun member =>
               Member.role member = "member" /\
               Member.user member <> createdBy c) rest) /\
  moderators c = [createdBy c] /\
  forall userId,
    isModerator c userId = (toString (createdBy c) =? toString userId).
Proof.
  intros Hr.
  assert (H : (exists joinedAt rest,
                 members c = Member.mk (createdBy c) joinedAt "admin" :: rest /\
                 Forall (fun member =>
                           Member.role member = "member" /\
                           Member.user member <> createdBy c) rest) /\
              moderators c = [createdBy c]).
  { induction Hr as [now user n d g p r sf c Hc
                    | now user c c' Hr [(t & rest & Hm & Hall) Hmod] Hj
                    | user c c' Hr [(t & rest & Hm & Hall) Hmod] Hl
                    | postId c Hr [(t & rest & Hm & Hall) Hmod]].
    4:{ cbn [addPost members moderators createdBy]. split; [|exact Hmod].
        exists t, rest. now split. }
    - apply create_stored in Hc as (Hb & Hm & Hmod). rewrite Hb, Hm, Hmod.
      split; [|reflexivity]. exists now, []. split; [reflexivity | constructor].
    - apply join_stored in Hj as [-> | [Hn ->]]; [split; eauto|].
      cbn [members moderators createdBy set_members]. split; [|exact Hmod].
      exists t, (rest ++ [Member.mk (_id user) now "member"])%list.
      rewrite Hm. split; [reflexivity|]. apply Forall_app. split; [exact Hall|].
      constructor; [|constructor]. cbn. split; [reflexivity|].
      intros Heq. unfold isMember, Js.some in Hn. rewrite Hm in Hn.
      cbn in Hn. rewrite Heq in Hn. unfold toString in Hn.
      now rewrite String.eqb_refl in Hn.
    - apply leave_stored in Hl as [-> | [Hne ->]]; [split; eauto|].
      unfold removeMember. cbn [members moderators createdBy set_members].
      split; [|exact Hmod]. rewrite Hm. cbn [filter Member.user].
      apply String.eqb_neq in Hne. rewrite Hne. cbn [negb].
      eexists. eexists. split; [reflexivity|].
      apply Forall_forall. intros m Hin. apply filter_In in Hin as [Hin _].
      rewrite Forall_forall in Hall. now apply Hall. }
  destruct H as [Hshape Hmod]. split; [exact Hshape|]. split; [exact Hmod|].
  intros userId. unfold isModerator, Js.some. rewrite Hmod. cbn [existsb].
  now destruct (toString (createdBy c) =? toString userId).
Qed.

Lemma creator_heads_members_witness :
  let u := mkUser "64b0c0ffee0000000000000a" "citizen" "Asha" in
  let w := mkUser "64b0c0ffee0000000000000c" "citizen" "Ravi" in
  let c := Community.mk "Ward 12 Residents"
             "Neighbours of ward 12 reporting civic issues" "General"
             (_id u) [_id u]
             [Member.mk (_id u) 10 "admin"; Member.mk (_id w) 20 "member"]
             [] false false in
  (exists joinedAt rest,
     members c = Member.mk (createdBy c) joinedAt "admin" :: rest /\
     Forall (fun member =>
               Member.role member = "member" /\
               Member.user member <> createdBy c) rest) /\
  moderators c = [createdBy c] /\
  forall userId,
    isModerator c userId = (toString (createdBy c) =? toString userId).
Proof.
  intros u w c.
  apply (creator_heads_members c).
  apply (reach_join 20 w
           (Community.mk "Ward 12 Residents"
              "Neighbours of ward 12 reporting civic issues" "General"
              (_id u) [_id u] [Member.mk (_id u) 10 "admin"] [] false false)).
  - apply (reach_create 10 u "Ward 12 Residents"
             "Neighbours of ward 12 reporting civic issues" "General"
             None None true).
    reflexivity.
  - reflexivity.
Defined.

(** X21. Creating a community: a body that passes validation is answered
    400 'Community name already exists' when a community of that name was
    found; otherwise it is answered 500, nothing being stored, when the
    slug derived from the name is taken by a stored community, and 201 with
    the re-read community when it is free.  The community stored then has
    the trimmed name and description, the requester as creator, as only
    moderator and as only member, with role 'admin', no post, and the two
    settings set exactly when their form field is the string 'true'. *)
Theorem community_create_outcome {B} (populated : t -> B) now user name0
    description0 category0 p r existing slugFree :
  bodyValid name0 description0 category0 = true ->
  create populated now user name0 description0 category0 p r existing slugFree =
    match existing with
    | Some _ => (Err 400 "Community name already exists", None)
    | None =>
        if slugFree
        then
          let c := Community.mk (Validator.trim name0)
                     (Validator.trim description0) category0 (_id user)
                     [_id user] [Member.mk (_id user) now "admin"] []
                     (isTrue p) (isTrue r) in
          (Created (populated c), Some c)
        else (Err 500 "Server error", None)
    end.
Proof.
  intros Hv. unfold create. cbv zeta. unfold bodyValid in Hv. rewrite Hv.
  cbn [negb]. destruct existing; [reflexivity|].
  destruct slugFree; [|reflexivity].
  cbn. rewrite trim_idem. reflexivity.
Qed.

Lemma community_create_outcome_witness :
  let u := mkUser "64b0c0ffee0000000000000a" "citizen" "Asha" in
  create (fun community => community) 10 u " Ward 12 Residents"
         "Neighbours of ward 12 reporting civic issues"
         "General" (Some "true") (Some "on") None true =
    (let c := Community.mk "Ward 12 Residents"
                "Neighbours of ward 12 reporting civic issues" "General"
                (_id u) [_id u] [Member.mk (_id u) 10 "admin"] [] true false in
     (Created c, Some c)).
Proof.
  intros u.
  apply (community_create_outcome (fun community => community) 10 u
           " Ward 12 Residents"
           "Neighbours of ward 12 reporting civic issues" "General"
           (Some "true") (Some "on") None true).
  reflexivity.
Defined.
End CommunityInvariantFacts.

Section CommunityPostFacts.
Import CommunityMore.

(** X22. Posting is for members: on a request whose body passes
    validation, a user who is not a member of the community is answered 403
    and neither a post nor a changed community is stored.  For a member, a
    [relatedComplaint] that Mongoose cannot cast to an ObjectId is answered
    500, again with nothing stored; otherwise the answer is 201 with the
    re-read post, the post's identifier is appended to the community's post
    list (members, moderators and the rest of the community stay as they
    were), and the stored post has the requester as author, the community of the route, the trimmed title and content,
    type 'discussion' unless the body gives one, the cast related complaint,
    and no comment, like, view or edit. *)
Theorem post_create_gate {B} (populated : CommunityPost.t -> B) castObjectId
    now user id postId title0 content0 type0 relatedComplaint0 file caption c :
  CommunityPost.bodyValid title0 content0 type0 = true ->
  if Community.isMember c (_id user)
  then match CommunityPost.related castObjectId relatedComplaint0 with
       | Some relatedComplaint1 =>
           exists post,
             CommunityPost.create populated castObjectId now user id postId
               title0 content0 type0 relatedComplaint0 file caption (Some c) =
               (Created (populated post), Some (Community.addPost c postId),
                Some post) /\
             Community.posts (Community.addPost c postId) =
               (Community.posts c ++ [postId])%list /\
             Community.members (Community.addPost c postId) = Community.members c /\
             Community.moderators (Community.addPost c postId) =
               Community.moderators c /\
             CommunityPost.author post = _id user /\
             CommunityPost.community post = id /\
             CommunityPost.title post = Validator.trim title0 /\
             CommunityPost.content post = Validator.trim content0 /\
             CommunityPost.type post =
               match type0 with Some ty => ty | None => "discussion" end /\
             CommunityPost.relatedComplaint post = relatedComplaint1 /\
             CommunityPost.comments post = [] /\
             CommunityPost.likes post = [] /\
             CommunityPost.views post = [] /\
             CommunityPost.isEdited post = false /\
             CommunityPost.editHistory post = []
       | None =>
           CommunityPost.create populated castObjectId now user id postId
             title0 content0 type0 relatedComplaint0 file caption (Some c) =
             (Err 500 "Server error", Some c, None)
       end
  else CommunityPost.create populated castObjectId now user id postId title0
         content0 type0 relatedComplaint0 file caption (Some c) =
         (Err 403 "Must be a community member to post", Some c, None).
Proof.
  intros Hv. unfold CommunityPost.create. cbv zeta. rewrite Hv. cbn [negb].
  destruct (Community.isMember c (_id user)); cbn [negb]; [|reflexivity].
  destruct (CommunityPost.related castObjectId relatedComplaint0); [|reflexivity].
  eexists. split; [reflexivity|].
  destruct file; cbn; rewrite trim_idem; repeat split.
Qed.

Lemma post_create_gate_witness :
  let u := mkUser "64b0c0ffee0000000000000a" "citizen" "Asha" in
  let c := Community.mk "Ward 12 Residents"
             "Neighbours of ward 12 reporting civic issues" "General"
             (_id u) [_id u] [Community.Member.mk (_id u) 10 "admin"] []
             false false in
  let cast := fun s : string =>
                if (String.length s =? 24)%nat then Some s else None in
  CommunityPost.create (fun post => post) cast 30 u "64b0c0ffee000000000000c1"
    "64b0c0ffee000000000000f1" "Street lights"
    "Three lamps are out on Lake Road" None (Some "pothole-17")
    (Some "lamp.jpg") None (Some c) =
    (Err 500 "Server error", Some c, None).
Proof.
  intros u c cast.
  apply (post_create_gate (fun post => post) cast 30 u
           "64b0c0ffee000000000000c1" "64b0c0ffee000000000000f1"
           "Street lights" "Three lamps are out on Lake Road" None
           (Some "pothole-17") (Some "lamp.jpg") None c).
  reflexivity.
Defined.

Lemma find_none_some {A} (p : A -> bool) (l : list A) :
  find p l = None <-> existsb p l = false.
Proof.
  induction l as [|x l IH]; simpl; [tauto|].
  destruct (p x); simpl; [split; discriminate | exact IH].
Qed.

Lemma addView_stored now p userId :
  CommunityPost.addView now p userId =
    if hasViewed p userId then p
    else CommunityPost.set_views
           (CommunityPost.views p ++ [CommunityPost.View.mk userId now]) p.
Proof.
  unfold CommunityPost.addView, hasViewed, Js.some. cbv zeta.
  destruct (find _ (CommunityPost.views p)) eqn:E.
  - destruct (existsb _ (CommunityPost.views p)) eqn:Ex; [reflexivity|].
    apply find_none_some in Ex. congruence.
  - apply find_none_some in E. now rewrite E.
Qed.

(** X23. Views are counted once per user: when no user is twice in the
    view array, [addView] raises the view count by one for a user who has
    not viewed the post and leaves the post alone otherwise; afterwards the
    user has exactly one view entry, the array still has no user twice, and
    a second [addView] of that user changes nothing. *)
Theorem addView_once now1 now2 p userId :
  NoDup (viewers p) ->
  CommunityPost.viewCount (CommunityPost.addView now1 p userId) =
    (if hasViewed p userId then CommunityPost.viewCount p
     else S (CommunityPost.viewCount p)) /\
  count_occ string_dec (viewers (CommunityPost.addView now1 p userId)) userId = 1%nat /\
  NoDup (viewers (CommunityPost.addView now1 p userId)) /\
  CommunityPost.addView now2 (CommunityPost.addView now1 p userId) userId =
    CommunityPost.addView now1 p userId.
Proof.
  intros Hnd.
  assert (Hnd1 : NoDup (viewers (CommunityPost.addView now1 p userId))).
  { rewrite addView_stored. destruct (hasViewed p userId) eqn:E; [exact Hnd|].
    unfold viewers. cbn [CommunityPost.views CommunityPost.set_views].
    apply NoDup_map_push; [exact Hnd|]. cbn [CommunityPost.View.user].
    intros Hin. apply in_map_iff in Hin as (v & Hv & Hin).
    unfold hasViewed, Js.some in E.
    assert (Ht : existsb
                   (fun view => toString (CommunityPost.View.user view) =? toString userId)
                   (CommunityPost.views p) = true).
    { apply existsb_exists. exists v. split; [exact Hin|].
      apply String.eqb_eq. exact Hv. }
    congruence. }
  assert (Hv1 : hasViewed (CommunityPost.addView now1 p userId) userId = true).
  { rewrite addView_stored. destruct (hasViewed p userId) eqn:E; [exact E|].
    unfold hasViewed, Js.some. cbn [CommunityPost.views CommunityPost.set_views].
    rewrite existsb_app. cbn [existsb CommunityPost.View.user].
    unfold toString. rewrite String.eqb_refl. apply orb_true_r. }
  split; [|split; [|split]].
  - rewrite addView_stored. unfold CommunityPost.viewCount.
    destruct (hasViewed p userId); [reflexivity|].
    cbn [CommunityPost.views CommunityPost.set_views].
    rewrite length_app. simpl. now rewrite Nat.add_1_r.
  - apply NoDup_count_occ'; [exact Hnd1|].
    unfold hasViewed, Js.some in Hv1. apply existsb_exists in Hv1 as (v & Hin & Hv).
    apply String.eqb_eq in Hv. unfold viewers. apply in_map_iff.
    exists v. split; [exact Hv | exact Hin].
  - exact Hnd1.
  - rewrite (addView_stored now2). now rewrite Hv1.
Qed.

Lemma addView_once_witness :
  let p := CommunityPost.mk "Street lights" "Three lamps are out on Lake Road"
             "64b0c0ffee0000000000000a" "64b0c0ffee000000000000c1" "discussion"
             [] None [] []
             [CommunityPost.View.mk "64b0c0ffee0000000000000c" 40]
             false false false [] in
  let w : ObjectId := "64b0c0ffee0000000000000d" in
  CommunityPost.viewCount (CommunityPost.addView 50 p w) = 2%nat /\
  count_occ string_dec (viewers (CommunityPost.addView 50 p w)) w = 1%nat /\
  NoDup (viewers (CommunityPost.addView 50 p w)) /\
  CommunityPost.addView 51 (CommunityPost.addView 50 p w) w =
    CommunityPost.addView 50 p w.
Proof.
  intros p w.
  apply (addView_once 50 51 p w).
  apply NoDup_cons; [simpl; tauto | apply NoDup_nil].
Defined.
End CommunityPostFacts.

Section StatusBadgeFacts.
Import Validator ComplaintMore ComplaintDetail.

Lemma lowerChar_idem a : lowerChar (lowerChar a) = lowerChar a.
Proof. destruct a as [[] [] [] [] [] [] [] []]; reflexivity. Qed.

Lemma isSpace_lowerChar a : isSpace (lowerChar a) = isSpace a.
Proof. destruct a as [[] [] [] [] [] [] [] []]; reflexivity. Qed.

Lemma toLowerCase_idem s : toLowerCase (toLowerCase s) = toLowerCase s.
Proof.
  induction s as [|a r IH]; simpl; [reflexivity|].
  now rewrite lowerChar_idem, IH.
Qed.

Lemma ltrim_lower s : ltrim (toLowerCase s) = toLowerCase (ltrim s).
Proof.
  induction s as [|a r IH]; simpl; [reflexivity|].
  rewrite isSpace_lowerChar. now destruct (isSpace a).
Qed.

Lemma rtrim_lower s : rtrim (toLowerCase s) = toLowerCase (rtrim s).
Proof.
  induction s as [|a r IH]; simpl; [reflexivity|].
  rewrite IH, isSpace_lowerChar.
  destruct (rtrim r); simpl; [now destruct (isSpace a) | reflexivity].
Qed.

Lemma trim_lower s : trim (toLowerCase s) = toLowerCase (trim s).
Proof. unfold trim. now rewrite ltrim_lower, rtrim_lower. Qed.

Lemma replaceRuns_lower b s :
  toLowerCase (replaceRuns b s) = replaceRuns b (toLowerCase s).
Proof.
  revert b. induction s as [|a r IH]; intros b; simpl; [reflexivity|].
  rewrite isSpace_lowerChar.
  destruct (isSpace a); [destruct b|]; simpl; now rewrite ?IH.
Qed.

Lemma replaceRuns_noSpace b s : noSpace (replaceRuns b s) = true.
Proof.
  revert b. induction s as [|a r IH]; intros b; simpl; [reflexivity|].
  destruct (isSpace a) eqn:E; [destruct b|]; simpl; rewrite ?E, ?IH; reflexivity.
Qed.

Lemma replaceRuns_id b s : noSpace s = true -> replaceRuns b s = s.
Proof.
  revert b. induction s as [|a r IH]; intros b; simpl; [reflexivity|].
  intros H. apply andb_true_iff in H as [Ha Hr].
  apply negb_true_iff in Ha. rewrite Ha. now rewrite IH.
Qed.

Lemma ltrim_noSpace s : noSpace s = true -> ltrim s = s.
Proof.
  destruct s as [|a r]; simpl; [reflexivity|].
  intros H. apply andb_true_iff in H as [Ha _].
  apply negb_true_iff in Ha. now rewrite Ha.
Qed.

Lemma rtrim_noSpace s : noSpace s = true -> rtrim s = s.
Proof.
  induction s as [|a r IH]; simpl; [reflexivity|].
  intros H. apply andb_true_iff in H as [Ha Hr].
  apply negb_true_iff in Ha. rewrite IH, Ha by exact Hr.
  now destruct r.
Qed.

Lemma trim_noSpace s : noSpace s = true -> trim s = s.
Proof.
  intros H. unfold trim. now rewrite ltrim_noSpace, rtrim_noSpace.
Qed.

Lemma replaceRuns_noHyphen u : forall t,
  noHyphen u = true -> replaceRuns false t = u -> t = u.
Proof.
  induction u as [|c u IH]; intros t Hu Ht.
  - destruct t as [|a r]; [reflexivity|]. simpl in Ht.
    destruct (isSpace a); discriminate.
  - simpl in Hu. apply andb_true_iff in Hu as [Hc Hu].
    destruct t as [|a r]; [discriminate|]. simpl in Ht.
    destruct (isSpace a).
    + injection Ht as <- _. discriminate.
    + injection Ht as -> Hr. f_equal. now apply IH.
Qed.

Lemma normalizeStatus_noSpace s : noSpace (normalizeStatus s) = true.
Proof.
  unfold normalizeStatus. cbv zeta.
  destruct (_ =? "submitted"); [reflexivity|].
  destruct (_ =? "in progress"); [reflexivity|].
  apply replaceRuns_noSpace.
Qed.

(** X24. The status key shown for a complaint is a normal form: it
    contains no white space, normalising it again returns it unchanged, and
    it does not depend on the letter case of the status nor on white space
    around it. *)
Theorem normalizeStatus_stable status :
  noSpace (normalizeStatus status) = true /\
  normalizeStatus (normalizeStatus status) = normalizeStatus status /\
  normalizeStatus (toLowerCase status) = normalizeStatus status /\
  normalizeStatus (Validator.trim status) = normalizeStatus status.
Proof.
  split; [apply normalizeStatus_noSpace|]. split; [|split].
  - unfold normalizeStatus at 2 3. cbv zeta.
    set (t := toLowerCase (trim status)).
    destruct (t =? "submitted") eqn:E1; [reflexivity|].
    destruct (t =? "in progress") eqn:E2; [reflexivity|].
    unfold normalizeStatus. cbv zeta.
    rewrite trim_noSpace by apply replaceRuns_noSpace.
    assert (Hl : toLowerCase (replaceRuns false t) = replaceRuns false t).
    { rewrite replaceRuns_lower. unfold t. now rewrite toLowerCase_idem. }
    rewrite Hl.
    destruct (replaceRuns false t =? "submitted") eqn:E3.
    { apply String.eqb_eq in E3. apply replaceRuns_noHyphen in E3; [|reflexivity].
      rewrite E3 in E1. discriminate. }
    destruct (replaceRuns false t =? "in progress") eqn:E4.
    { apply String.eqb_eq in E4.
      pose proof (replaceRuns_noSpace false t) as Hn. rewrite E4 in Hn.
      discriminate. }
    apply replaceRuns_id, replaceRuns_noSpace.
  - unfold normalizeStatus. cbv zeta.
    now rewrite trim_lower, toLowerCase_idem.
  - unfold normalizeStatus. cbv zeta. now rewrite trim_idem.
Qed.
End StatusBadgeFacts.

Section RevoteFacts.
Import Complaint Mongoose ComplaintView ComplaintMore.

Lemma length_others_voted userId l :
  NoDup (voters l) ->
  Js.some (castBy userId) l = true ->
  S (List.length (others userId l)) = List.length l.
Proof.
  intros Hnd Hex. exact (length_filter_key Vote.user userId l Hnd Hex).
Qed.

Lemma wellFormed_states c userId :
  votesWellFormed c ->
  hasUpvoted c userId && hasDownvoted c userId = false.
Proof.
  intros (_ & _ & Hdis).
  destruct (hasUpvoted c userId) eqn:Eu; [|reflexivity].
  destruct (hasDownvoted c userId) eqn:Ed; [|reflexivity].
  exfalso. unfold hasUpvoted, hasDownvoted, Js.some in Eu, Ed.
  apply existsb_exists in Eu as (v & Hv & Ev).
  apply existsb_exists in Ed as (v' & Hv' & Ev').
  unfold castBy, toString in Ev, Ev'.
  apply String.eqb_eq in Ev, Ev'.
  apply (Hdis userId).
  - unfold voters. rewrite <- Ev. now apply in_map.
  - unfold voters. rewrite <- Ev'. now apply in_map.
Qed.

(** X25. Voting again on well-formed vote arrays: a user who holds a vote
    and sends the same vote type withdraws it, which moves [voteCount] by
    one against the vote; a user who sends the other vote type switches,
    which moves [voteCount] by two towards the new vote.  The answer
    reports no vote in the first case and the new vote in the second. *)
Theorem revote_counts now user voteType prior c :
  validVoteType voteType = true ->
  votesWellFormed c ->
  hasUserVoted c (_id user) = Some prior ->
  exists c' r,
    vote now user voteType (Some c) = (Ok r, Some c') /\
    userVote r = (if voteType =? prior then None else Some voteType) /\
    voteCount c' =
      Z.add (voteCount c)
            (if voteType =? "upvote"
             then (if prior =? "upvote" then (-1)%Z else 2%Z)
             else (if prior =? "upvote" then (-2)%Z else 1%Z)).
Proof.
  intros Hv Hwf Hprior.
  pose proof (wellFormed_states c (_id user) Hwf) as Hex.
  destruct Hwf as (Hnu & Hnd & _).
  destruct (vote_stored now user voteType c Hv) as (c' & Hr & Hu & Hd & _).
  exists c'. eexists. split; [exact Hr|]. cbn [userVote].
  unfold hasUserVoted in Hprior |- *. fold (castBy (_id user)) in Hprior |- *.
  fold (hasUpvoted c (_id user)) in Hprior.
  fold (hasDownvoted c (_id user)) in Hprior.
  rewrite Hu, Hd. unfold Js.some. rewrite !existsb_app.
  fold (Js.some (castBy (_id user)) (others (_id user) (upvotes c))).
  fold (Js.some (castBy (_id user)) (others (_id user) (downvotes c))).
  rewrite !others_has_none. cbn [orb].
  unfold voteCount. rewrite Hu, Hd, !length_app.
  destruct (hasUpvoted c (_id user)) eqn:Eu.
  - injection Hprior as <-. cbn [andb] in Hex. rewrite Hex.
    pose proof (length_others_voted (_id user) (upvotes c) Hnu Eu) as Hlen.
    rewrite (others_none (_id user) (downvotes c)) by exact Hex.
    destruct (validVoteType_cases _ Hv) as [-> | ->];
      change ("upvote" =? "upvote") with true;
      change ("downvote" =? "upvote") with false;
      change ("downvote" =? "downvote") with true;
      change ("upvote" =? "downvote") with false;
      cbn [andb negb existsb List.length orb]; rewrite ?castBy_self;
      (split; [reflexivity | lia]).
  - destruct (hasDownvoted c (_id user)) eqn:Ed; [|discriminate].
    injection Hprior as <-.
    pose proof (length_others_voted (_id user) (downvotes c) Hnd Ed) as Hlen.
    rewrite (others_none (_id user) (upvotes c)) by exact Eu.
    destruct (validVoteType_cases _ Hv) as [-> | ->];
      change ("upvote" =? "upvote") with true;
      change ("downvote" =? "upvote") with false;
      change ("downvote" =? "downvote") with true;
      change ("upvote" =? "downvote") with false;
      cbn [andb negb existsb List.length orb]; rewrite ?castBy_self;
      (split; [reflexivity | lia]).
Qed.

Lemma revote_counts_witness :
  let u := mkUser "64b0c0ffee0000000000000a" "citizen" "Asha" in
  let c := sample [Vote.mk "64b0c0ffee0000000000000c" 3]
                  [Vote.mk "64b0c0ffee0000000000000a" 4] in
  exists c' r,
    vote 10 u "upvote" (Some c) = (Ok r, Some c') /\
    userVote r = Some "upvote" /\
    voteCount c' = Z.add (voteCount c) 2%Z.
Proof.
  intros u c.
  apply (revote_counts 10 u "upvote" "downvote" c).
  - reflexivity.
  - unfold votesWellFormed; simpl. split; [|split].
    + apply NoDup_cons; [simpl; tauto | apply NoDup_nil].
    + apply NoDup_cons; [simpl; tauto | apply NoDup_nil].
    + intros w [<- | []] [H | []]. discriminate.
  - reflexivity.
Defined.
End RevoteFacts.
